(** * The career-guidance app (src/app.py): a shallow embedding

    The script is a Streamlit page: one run of [main] reads the widgets,
    updates [st.session_state], talks to the model and the agent, and
    writes to the page.  The embedding keeps

    - Python [str] as a list of Unicode code points ([N]), with the
      built-in string methods the script uses ([startswith], [find],
      [replace], [strip], slicing) written out;
    - [st.session_state] as a finite map from keys to Python values;
    - the model, the agent and the file parsers as oracles whose replies
      are inputs of the run;
    - effects as a state-and-exception monad over the session state, the
      page (a trace of what was displayed) and the calls made. *)

From Stdlib Require Import ZArith NArith Lia Ascii String List.
From stdpp Require Import base list gmap strings fin_maps pretty.

Set Default Proof Using "Type".

(** ** Python strings *)

(** A [str] is a sequence of code points. *)
Abbreviation str := (list N).

Module Utf8.

(** The source file is UTF-8; literals are written as Rocq strings (byte
    strings) and decoded into code points. *)
Fixpoint decode (bs : list N) : str :=
  match bs with
  | [] => []
  | b0 :: r0 =>
    if (b0 <? 128)%N then b0 :: decode r0
    else
      match r0 with
      | [] => []
      | b1 :: r1 =>
        if (b0 <? 224)%N then ((b0 - 192) * 64 + (b1 - 128))%N :: decode r1
        else
          match r1 with
          | [] => []
          | b2 :: r2 =>
            if (b0 <? 240)%N
            then (((b0 - 224) * 64 + (b1 - 128)) * 64 + (b2 - 128))%N :: decode r2
            else
              match r2 with
              | [] => []
              | b3 :: r3 =>
                ((((b0 - 240) * 64 + (b1 - 128)) * 64 + (b2 - 128)) * 64
                 + (b3 - 128))%N :: decode r3
              end
          end
      end
  end.

End Utf8.

(** [py "..."] is the Python string with that source text.  Rocq strings
    have no escapes, so a backslash in the literal is a backslash. *)
Definition py (s : string) : str :=
  Utf8.decode (map N_of_ascii (list_ascii_of_string s)).

Definition LF : N := 10.         (* line feed *)
Definition CR : N := 13.         (* carriage return *)
Definition SQ : N := 39.         (* single quote *)
Definition DQ : N := 34.         (* double quote *)
Definition BACKSLASH : N := 92.

(** [str.isspace] for one code point, as [str.strip()] uses it. *)
Definition isspace (c : N) : bool :=
  ((9 <=? c) && (c <=? 13) || (28 <=? c) && (c <=? 32)
   || (c =? 133) || (c =? 160) || (c =? 5760)
   || (8192 <=? c) && (c <=? 8202)
   || (c =? 8232) || (c =? 8233) || (c =? 8239) || (c =? 8287)
   || (c =? 12288))%N.

(** [val.startswith(p)] *)
Fixpoint startswith (val p : str) {struct p} : bool :=
  match p, val with
  | [], _ => true
  | _ :: _, [] => false
  | c :: p', d :: val' => (c =? d)%N && startswith val' p'
  end.

(** [val.endswith(p)] *)
Definition endswith (val p : str) : bool :=
  startswith (reverse val) (reverse p).

(** [p in val] *)
Fixpoint contains (p val : str) : bool :=
  startswith val p ||
  match val with
  | [] => false
  | _ :: val' => contains p val'
  end.

(** [val.find(p)]: the lowest index where [p] starts, [-1] when there is
    none. *)
Fixpoint find (val p : str) : Z :=
  if startswith val p then 0%Z
  else
    match val with
    | [] => (-1)%Z
    | _ :: val' =>
      let i := find val' p in
      if (i <? 0)%Z then (-1)%Z else (i + 1)%Z
    end.

(** Slices [l[start:]] and [l[:stop]]; a negative bound counts from the
    end and is clipped at the start of the list. *)
Definition slice_from {A} (l : list A) (start : Z) : list A :=
  if (start <? 0)%Z then drop (length l - Z.to_nat (- start)) l
  else drop (Z.to_nat start) l.

Definition slice_to {A} (l : list A) (stop : Z) : list A :=
  if (stop <? 0)%Z then take (length l - Z.to_nat (- stop)) l
  else take (Z.to_nat stop) l.

(** [val.replace(old, new)]: occurrences are found left to right and do not
    overlap.  [skip] counts the characters of the occurrence just replaced
    that are still to be passed over. *)
Fixpoint replace_from (old new : str) (skip : nat) (val : str) : str :=
  match val with
  | [] => []
  | c :: val' =>
    match skip with
    | S k => replace_from old new k val'
    | O =>
      if startswith val old
      then new ++ replace_from old new (length old - 1) val'
      else c :: replace_from old new 0 val'
    end
  end.

Definition replace (val old new : str) : str :=
  match old with
  | [] => new ++ flat_map (fun c => c :: new) val
  | _ :: _ => replace_from old new 0 val
  end.

(** [val.strip()] *)
Fixpoint lstrip (val : str) : str :=
  match val with
  | [] => []
  | c :: val' => if isspace c then lstrip val' else val
  end.

Definition rstrip (val : str) : str := reverse (lstrip (reverse val)).

Definition strip (val : str) : str := rstrip (lstrip val).

(** [sep.join(parts)] *)
Fixpoint join (sep : str) (parts : list str) : str :=
  match parts with
  | [] => []
  | [p] => p
  | p :: rest => p ++ sep ++ join sep rest
  end.

(** ** Output normalisation: [as_markdown] *)

(** What [as_markdown] is applied to: a plain [str], or an object (a
    message of the model) with its [content] attribute, when it has one
    that is not [None], and its [str()] rendering. *)
Inductive py_output :=
| PStr (s : str)
| PObj (content : option str) (repr : str).

(** [getattr(output, "content", None)] *)
Definition content_attr (output : py_output) : option str :=
  match output with
  | PStr _ => None
  | PObj c _ => c
  end.

(** [str(output)] *)
Definition py_str (output : py_output) : str :=
  match output with
  | PStr s => s
  | PObj _ r => r
  end.

Definition wrapper_sq : str := py "content='".
Definition wrapper_dq : str := py "content=" ++ [DQ].
Definition backslash_n : str := [BACKSLASH; 110%N].
Definition LF2 : str := [LF; LF].
Definition LF3 : str := [LF; LF; LF].

(** Line 17: the text begins with one of the two wrappers. *)
Definition wrapped (val : str) : bool :=
  startswith val wrapper_sq || startswith val wrapper_dq.

(** Lines 17-21: one wrapper is cut off the front, up to the first quote
    of the text, and one closing quote off the end. *)
Definition unwrap (val : str) : str :=
  if wrapped val then
    let start :=
      if contains [SQ] val then (find val [SQ] + 1)%Z
      else (find val [DQ] + 1)%Z in
    let val := slice_from val start in
    if endswith val [SQ] || endswith val [DQ] then slice_to val (-1) else val
  else val.

(** Lines 23-24: the [while] loop.  Every turn shortens [val], so
    [length val] turns are enough ([collapse_loop_enough]). *)
Fixpoint collapse_loop (fuel : nat) (val : str) : str :=
  match fuel with
  | O => val
  | S fuel' =>
    if contains LF3 val then collapse_loop fuel' (replace val LF3 LF2)
    else val
  end.

Definition collapse (val : str) : str := collapse_loop (length val) val.

(** Lines 22-25: escaped line feeds become line feeds, carriage returns
    go, blank lines are collapsed and the text is stripped. *)
Definition finish (val : str) : str :=
  let val := replace (replace val backslash_n [LF]) [CR] [] in
  let val := collapse val in
  strip val.

(** Lines 13-25.  A [content] that is not a text (a list of parts) is not
    modelled: line 17 raises on it. *)
Definition as_markdown (output : py_output) : str :=
  let val :=
    match content_attr output with
    | Some c => c
    | None => py_str output
    end in
  finish (unwrap val).

(** ** Values, the session state and the page *)

(** A chat message, the dict with the keys [role] and [content]. *)
Record message := Message { role : str; content : str }.

(** The Python values the script keeps in [st.session_state]. *)
Inductive value :=
| VNone
| VBool (b : bool)
| VOut (o : py_output)
| VList (l : list message).

Abbreviation VStr s := (VOut (PStr s)).

(** [bool(v)] *)
Definition truthy (v : value) : bool :=
  match v with
  | VNone => false
  | VBool b => b
  | VOut (PStr s) => match s with [] => false | _ :: _ => true end
  | VOut (PObj _ _) => true
  | VList l => match l with [] => false | _ :: _ => true end
  end.

(** [bool(s)] for a [str] *)
Definition nonempty (s : str) : bool :=
  match s with [] => false | _ :: _ => true end.

(** What is written on the page.  [st.success], [st.info], [st.warning]
    and [st.error] are traced, and every [st.markdown] of a computed text;
    titles, headers, the fixed explanatory texts, spinners and layout
    containers are not. *)
Inductive element :=
| Markdown | Info | Warning | Error | Success
| ChatMessage (who : str).

(** What a run does, in order: elements shown, and calls that leave the
    process.  Searches happen only inside a run of the agent. *)
Inductive event :=
| Show (el : element) (text : str)
| LlmInvoke (prompt : str)
| AgentRun (prompt : str) (callbacks : bool).

(** A call into a library returns or raises; an exception is kept as its
    message [str(e)].  The handlers of the script are [except Exception],
    so the exceptions modelled are the instances of [Exception]. *)
Inductive reply (A : Type) :=
| Returns (a : A)
| Throws (e : str).
Arguments Returns {A} a.
Arguments Throws {A} e.

(** The model object ([llm.invoke]) and the agent ([agent_executor.run]):
    the reply may depend on everything the run did so far. *)
Definition model := list event -> str -> reply py_output.
Definition agent := list event -> str -> reply py_output.

Inductive tool := WebSearch (serpapi_key : str).

Record world := World {
  session_state : gmap string value;
  trace : list event
}.

(** How a computation ends: normally, with an exception, or in
    [st.rerun()], which no handler of the script catches. *)
Inductive outcome (A : Type) :=
| Ok (a : A)
| Raised (e : str)
| Rerun.
Arguments Ok {A} a.
Arguments Raised {A} e.
Arguments Rerun {A}.

Definition M (A : Type) : Type := world -> outcome A * world.

#[global] Instance M_ret : MRet M := fun A a w => (Ok a, w).

#[global] Instance M_bind : MBind M := fun A B f m w =>
  match m w with
  | (Ok a, w') => f a w'
  | (Raised e, w') => (Raised e, w')
  | (Rerun, w') => (Rerun, w')
  end.

Definition raise {A} (e : str) : M A := fun w => (Raised e, w).

Definition st_rerun {A} : M A := fun w => (Rerun, w).

(** [try: body  except Exception as e: handler] *)
Definition try_except {A} (body : M A) (handler : str -> M A) : M A :=
  fun w =>
    match body w with
    | (Raised e, w') => handler e w'
    | r => r
    end.

Definition emit (ev : event) : M unit :=
  fun w => (Ok tt, World (session_state w) (trace w ++ [ev])).

Definition st_markdown (text : str) : M unit := emit (Show Markdown text).
Definition st_info (text : str) : M unit := emit (Show Info text).
Definition st_warning (text : str) : M unit := emit (Show Warning text).
Definition st_error (text : str) : M unit := emit (Show Error text).
Definition st_success (text : str) : M unit := emit (Show Success text).

(** [llm.invoke(prompt)] *)
Definition invoke (llm : model) (prompt : str) : M py_output :=
  fun w =>
    let w' := World (session_state w) (trace w ++ [LlmInvoke prompt]) in
    match llm (trace w) prompt with
    | Returns o => (Ok o, w')
    | Throws e => (Raised e, w')
    end.

(** [agent_executor.run(prompt)], with or without [callbacks]. *)
Definition run (agent_executor : agent) (prompt : str) (callbacks : bool)
  : M py_output :=
  fun w =>
    let w' := World (session_state w) (trace w ++ [AgentRun prompt callbacks]) in
    match agent_executor (trace w) prompt with
    | Returns o => (Ok o, w')
    | Throws e => (Raised e, w')
    end.

(** Reading [st.session_state.key]: an absent key raises.  The message
    is Streamlit's; the script never reads it, and a stand-in is kept. *)
Definition missing (key : string) : str :=
  py "st.session_state has no attribute " ++ py key.

Definition get_attr (key : string) : M value :=
  fun w =>
    match session_state w !! key with
    | Some v => (Ok v, w)
    | None => (Raised (missing key), w)
    end.

(** [st.session_state.key = v] *)
Definition set_attr (key : string) (v : value) : M unit :=
  fun w => (Ok tt, World (<[key := v]> (session_state w)) (trace w)).

(** [st.session_state.chat_messages] as the list it is. *)
Definition get_messages : M (list message) :=
  v ← get_attr "chat_messages";
  match v with
  | VList l => mret l
  | _ => raise (py "chat_messages is not a list")
  end.

(** [st.session_state.chat_messages.append(m)] *)
Definition append_message (m : message) : M unit :=
  l ← get_messages;
  set_attr "chat_messages" (VList (l ++ [m])).

(** ** The career taxonomy *)

Definition CAREER_CATEGORIES : list (str * list str) :=
  [ (py "💻 Technology",
     [ py "AI & Machine Learning Engineer";
       py "Data Scientist";
       py "Cybersecurity Analyst";
       py "Cloud Solutions Architect";
       py "Full Stack Developer";
       py "DevOps Engineer";
       py "Blockchain Developer";
       py "Mobile App Developer";
       py "Data Engineer";
       py "Software Quality Assurance Engineer" ]);
    (py "🩺 Healthcare",
     [ py "Medical Data Analyst";
       py "Telehealth Specialist";
       py "Biomedical Engineer";
       py "Clinical Research Associate";
       py "Healthcare Administrator";
       py "Public Health Specialist";
       py "Medical Laboratory Technologist";
       py "Physiotherapist";
       py "Pharmacy Manager";
       py "Healthcare IT Consultant" ]);
    (py "💼 Business",
     [ py "Business Analyst";
       py "Digital Marketing Strategist";
       py "Financial Data Analyst";
       py "Product Manager";
       py "HR Analytics Specialist";
       py "Management Consultant";
       py "Supply Chain Analyst";
       py "Investment Banker";
       py "Brand Manager";
       py "Operations Manager" ]);
    (py "🎥 Content Creation",
     [ py "Video Content Strategist";
       py "Social Media Manager";
       py "Copywriter / Content Writer";
       py "Graphic Designer";
       py "SEO Specialist";
       py "Podcast Producer";
       py "UX/UI Designer";
       py "Video Editor";
       py "Influencer Marketing Manager";
       py "Content Marketing Strategist" ]) ].

(** [d[k]] for the taxonomy; [None] stands for the [KeyError]. *)
Fixpoint dict_get (d : list (str * list str)) (k : str) : option (list str) :=
  match d with
  | [] => None
  | (k', v) :: d' => if bool_decide (k' = k) then Some v else dict_get d' k
  end.

(** ** The session *)

Definition defaults : list (string * value) :=
  [ ("chat_history", VList []);
    ("chat_messages", VList []);
    ("career_insights", VNone);
    ("market_analysis", VNone);
    ("college_recommendations", VNone);
    ("resume_feedback", VNone);
    ("selected_career", VNone);
    ("api_keys_validated", VBool false);
    ("active_tab", VStr (py "career_insights")) ]%string.

(** Lines 111-113: a default is stored only under a key that is absent. *)
Definition set_default (s : gmap string value) (kv : string * value)
  : gmap string value :=
  match s !! kv.1 with
  | Some _ => s
  | None => <[kv.1 := kv.2]> s
  end.

Definition initialize_session_state : M unit :=
  fun w => (Ok tt, World (foldl set_default (session_state w) defaults) (trace w)).

(** Lines 430-431: every key of the session is deleted. *)
Definition clear_session : M unit :=
  fun w =>
    (Ok tt,
     World (foldl (fun s k => delete k s) (session_state w)
                  (map fst (map_to_list (session_state w))))
           (trace w)).

(** ** The prompts

    Each f-string of the script, with its text as it stands in the source
    and the interpolated arguments in their places. *)

Definition career_prompt (category subcareer : str) : str :=
  py "
Generate a comprehensive career analysis for:

**Category**: "
  ++ category
  ++ py "
**Career**: "
  ++ subcareer
  ++ py "

Provide structured markdown that includes:
1) Career Overview (role, responsibilities, daily tasks)
2) Required Skills & Tools (technical + soft skills)
3) Learning Roadmap (beginner → intermediate → advanced)
4) Career Progression Path (roles & salary bands in India)
5) Future Outlook & trends
6) Suggested Resources (courses, books, certifications)
7) Quick Reference Summary (salary ranges in INR, demand in India, remote options)

Keep the output practical, actionable, and formatted in markdown. Focus on the Indian job market context.
".

Definition market_prompt (subcareer : str) : str :=
  py "
Search the web (live) and analyze the current job market in India for the role: "
  ++ [DQ]
  ++ subcareer
  ++ [DQ]
  ++ py ".

Please include:
- Current job demand and hiring trends in India (last 12 months)
- Typical salary ranges in INR (entry / mid / senior level)
- Top Indian companies hiring and industry sectors
- Major hiring cities in India (Bangalore, Mumbai, Delhi, Hyderabad, Pune, etc.)
- Skills in highest demand for this role in India
- Remote work availability and trends in India
- Short list of sources (urls or site names) used

Return a concise, well-structured markdown analysis with bullet points and a small summary table.
Focus specifically on the Indian job market.
".

Definition college_prompt (subcareer : str) : str :=
  py "
As a college advisor, provide detailed recommendations for pursuing a career in "
  ++ [DQ]
  ++ subcareer
  ++ [DQ]
  ++ py " in India.

Please include:

1) **Recommended Educational Paths**:
   - Degree programs (BTech, BSc, BA, MBA, MSc, etc.)
   - Specializations to focus on
   - Duration and typical eligibility

2) **Top Indian Colleges/Universities** (at least 10-15):
   - IITs, NITs, IIITs, and other premier institutes
   - State universities and private colleges
   - Include admission processes (JEE, GATE, CAT, etc.)
   - Approximate fees and placement records where known

3) **Alternative Education Paths**:
   - Online courses and certifications
   - Bootcamps and vocational training
   - Diploma programs

4) **Entrance Exams**:
   - Required entrance exams for admission
   - Preparation tips and resources

5) **Scholarships & Financial Aid**:
   - Government scholarships available
   - Merit-based and need-based options

6) **Additional Tips**:
   - Best states/cities for education in this field
   - Industry certifications to pursue alongside degree
   - Internship opportunities during education

Format the response in clear markdown with sections, bullet points, and tables where appropriate.
Focus exclusively on Indian institutions and the Indian education system.
".

Definition resume_prompt (resume_text target_role : str) : str :=
  py "
As an expert resume coach, analyze the following resume for the target role: "
  ++ [DQ]
  ++ target_role
  ++ [DQ]
  ++ py "

**Resume Content**:
"
  ++ resume_text
  ++ py "

Provide comprehensive feedback in the following structure:

1) **Overall Assessment** (Score: X/10):
   - Brief summary of strengths and weaknesses
   - First impression rating

2) **Content Analysis**:
   - Relevance to target role
   - Key achievements and quantifiable results
   - Skills alignment with job requirements
   - Missing critical information

3) **Format & Structure**:
   - Layout and readability assessment
   - Section organization
   - Length appropriateness

4) **Specific Improvements Needed**:
   - What to add (skills, experiences, keywords)
   - What to remove or reduce
   - How to rephrase key sections
   - ATS (Applicant Tracking System) optimization tips

5) **Section-by-Section Feedback**:
   - Summary/Objective
   - Work Experience
   - Education
   - Skills
   - Projects/Certifications

6) **Action Items** (Priority-ordered):
   - Top 5-7 changes to make immediately
   - Keywords to include for ATS
   - Formatting improvements

7) **Example Improvements**:
   - Before/After examples for 2-3 bullet points
   - Better ways to phrase achievements

8) **Industry-Specific Tips**:
   - Tailored advice for the Indian job market
   - Cultural considerations for Indian recruiters

Be constructive, specific, and actionable. Use markdown formatting with clear sections.
".

Definition chat_prompt (context_preview prompt : str) : str :=
  py "You are a helpful AI career advisor with expertise in:
- Career guidance and job market trends (especially in India)
- Indian colleges and universities
- Resume writing and optimization
- Skills development and learning paths

Conversation context:
"
  ++ context_preview
  ++ py "

User question: "
  ++ prompt
  ++ py "

Provide a helpful, concise answer. If you need live data about Indian colleges, job markets, or current trends, use the web_search tool.
When discussing education, focus on Indian institutions. When discussing salaries, use INR.
".

(** ** The environment of a run *)

(** What the run finds around it: whether the callback handler could be
    imported (lines 28-32), Python's [repr] of a list of messages, and the
    constructors of the model object (lines 123-128), of the search tool
    (lines 130-139) and of the agent (lines 148-154). *)
Record environment := Environment {
  HAVE_STREAMLIT_CALLBACK : bool;
  list_repr : list message -> str;
  ChatGoogleGenerativeAI : str -> reply model;
  SerpAPIWrapper : str -> reply tool;
  initialize_agent : list tool -> model -> reply agent
}.

Definition call {A} (r : reply A) : M A :=
  match r with
  | Returns a => mret a
  | Throws e => raise e
  end.

(** An uploaded file, as the resume tab reads it: its name, the extension
    [uploaded_file.name.split('.')[-1].lower()], and what each way of
    reading it gives. *)
Inductive imported (A : Type) :=
| ImportError
| Module_ (a : A).
Arguments ImportError {A}.
Arguments Module_ {A} a.

Record uploaded_file := UploadedFile {
  name : str;
  file_extension : str;
  decode_utf8 : reply str;
  pdf_pages : imported (reply (list (reply str)));
  docx_paragraphs : imported (reply (list str))
}.

Inductive resume_input :=
| UploadResumeFile (uploaded : option uploaded_file)
| PasteResumeText (text : str).

(** The widgets of one run: what the user has typed, chosen and pressed.
    [google_key] and [serpapi_key] are the contents of the two text inputs
    of the side bar, which [load_api_keys] (lines 94-97) fills in at
    first. *)
Record widgets := Widgets {
  google_key : str;
  serpapi_key : str;
  clear_session_clicked : bool;
  selected_category : str;
  selected_subcareer : str;
  btn_career_insights : bool;
  btn_market_analysis : bool;
  btn_college_recs : bool;
  resume_input_method : resume_input;
  target_role_input : str;
  btn_resume_analysis : bool;
  chat_input : option str
}.

(** The two select boxes return one of the options they were given. *)
Definition valid_selection (w : widgets) : Prop :=
  ∃ roles, dict_get CAREER_CATEGORIES (selected_category w) = Some roles
           ∧ selected_subcareer w ∈ roles.

(** ** The functions of the script *)

(** Lines 115-144.  The cache of line 115 gives a later call with the
    same keys the result of the first; one execution is what is modelled. *)
Definition initialize_llm_and_tools (env : environment)
    (google_api_key serpapi_key : str) : M (option model * option (list tool)) :=
  try_except
    (if negb (nonempty google_api_key) then raise (py "Google API key is required.")
     else if negb (nonempty serpapi_key) then raise (py "SerpAPI key is required.")
     else
       llm ← call (ChatGoogleGenerativeAI env google_api_key);
       search_tool ← call (SerpAPIWrapper env serpapi_key);
       mret (Some llm, Some [search_tool]))
    (fun e =>
       _ ← st_error (py "❌ Error initializing LLM/tools: " ++ e);
       mret (None, None)).

Definition create_agent_with_tools (env : environment)
    (llm : model) (tools : list tool) : M (option agent) :=
  try_except
    (agent_executor ← call (initialize_agent env tools llm);
     mret (Some agent_executor))
    (fun e =>
       _ ← st_error (py "❌ Error creating agent: " ++ e);
       mret None).

Definition generate_career_insights (category subcareer : str)
    (llm : option model) : M py_output :=
  try_except
    (match llm with
     | None => raise (py "LLM not initialized")
     | Some llm => invoke llm (career_prompt category subcareer)
     end)
    (fun e =>
       _ ← st_error (py "❌ Error generating career insights: " ++ e);
       mret (PStr (py "❌ Unable to generate career insights. Error: " ++ e))).

Definition generate_market_analysis (subcareer : str)
    (llm : option model) : M py_output :=
  try_except
    (match llm with
     | None => raise (py "LLM not initialized")
     | Some llm => invoke llm (market_prompt subcareer)
     end)
    (fun e =>
       _ ← st_error (py "❌ Error generating market analysis: " ++ e);
       mret (PStr (py "❌ Unable to fetch market analysis. Error: " ++ e))).

Definition generate_college_recommendations (subcareer : str)
    (llm : option model) : M py_output :=
  try_except
    (match llm with
     | None => raise (py "LLM not initialized")
     | Some llm => invoke llm (college_prompt subcareer)
     end)
    (fun e =>
       _ ← st_error (py "❌ Error generating college recommendations: " ++ e);
       mret (PStr (py "❌ Unable to generate college recommendations. Error: " ++ e))).

Definition generate_resume_feedback (resume_text target_role : str)
    (llm : option model) : M py_output :=
  try_except
    (match llm with
     | None => raise (py "LLM not initialized")
     | Some llm => invoke llm (resume_prompt resume_text target_role)
     end)
    (fun e =>
       _ ← st_error (py "❌ Error generating resume feedback: " ++ e);
       mret (PStr (py "❌ Unable to analyze resume. Error: " ++ e))).

(** *** The chat *)

(** Line 354: one line of the conversation context. *)
Definition context_line (m : message) : str := role m ++ py ": " ++ content m.

(** Lines 353-355 *)
Definition context_preview (chat_messages : list message) : str :=
  join [LF] (map context_line (slice_from chat_messages (-8))).

(** Lines 345-346: a message of the transcript on the page. *)
Definition shown (m : message) : event :=
  Show (ChatMessage (role m)) (content m).

Definition show_message (m : message) : M unit := emit (shown m).

Fixpoint show_messages (l : list message) : M unit :=
  match l with
  | [] => mret tt
  | m :: l' => _ ← show_message m; show_messages l'
  end.

(** Lines 340-384.  Building the callback handler (lines 374-375) is page
    plumbing like the containers; the two branches differ in the
    [callbacks] the agent is run with. *)
Definition create_chat_interface (env : environment) (agent_executor : agent)
    (chat_input : option str) : M unit :=
  chat_messages ← get_messages;
  _ ← show_messages chat_messages;
  match chat_input with
  | None => mret tt
  | Some prompt =>
    if nonempty prompt then
      _ ← append_message (Message (py "user") prompt);
      _ ← show_message (Message (py "user") prompt);
      chat_messages ← get_messages;
      let chat_prompt := chat_prompt (context_preview chat_messages) prompt in
      try_except
        (response ← run agent_executor chat_prompt (HAVE_STREAMLIT_CALLBACK env);
         _ ← show_message (Message (py "assistant") (as_markdown response));
         append_message (Message (py "assistant") (as_markdown response)))
        (fun e =>
           let err := py "❌ Error while answering: " ++ e in
           _ ← st_error err;
           append_message (Message (py "assistant") err))
    else mret tt
  end.

(** *** The feature tabs *)

(** A session value as [as_markdown] and [str()] see it. *)
Definition to_output (env : environment) (v : value) : py_output :=
  match v with
  | VNone => PObj None (py "None")
  | VBool true => PObj None (py "True")
  | VBool false => PObj None (py "False")
  | VOut o => o
  | VList l => PObj None (list_repr env l)
  end.

(** Lines 472, 483, 495 *)
Definition career_label (selected_category selected_subcareer : str) : str :=
  selected_category ++ py " → " ++ selected_subcareer.

(** The [elif] branch of the first three tabs: the cached result, when
    there is one. *)
Definition show_cached (env : environment) (key : string) : M unit :=
  cached ← get_attr key;
  if truthy cached then
    selected_career ← get_attr "selected_career";
    _ ← st_info (py "📋 Showing cached results for: **"
                 ++ py_str (to_output env selected_career) ++ py "**");
    st_markdown (as_markdown (to_output env cached))
  else mret tt.

(** Lines 469-478 *)
Definition career_insights_tab (env : environment) (w : widgets) (llm : model)
  : M unit :=
  if btn_career_insights w then
    _ ← set_attr "selected_career"
          (VStr (career_label (selected_category w) (selected_subcareer w)));
    career_insights ←
      generate_career_insights (selected_category w) (selected_subcareer w) (Some llm);
    _ ← set_attr "career_insights" (VOut career_insights);
    st_markdown (as_markdown career_insights)
  else show_cached env "career_insights".

(** Lines 480-489 *)
Definition market_analysis_tab (env : environment) (w : widgets) (llm : model)
  : M unit :=
  if btn_market_analysis w then
    _ ← set_attr "selected_career"
          (VStr (career_label (selected_category w) (selected_subcareer w)));
    market_analysis ← generate_market_analysis (selected_subcareer w) (Some llm);
    _ ← set_attr "market_analysis" (VOut market_analysis);
    st_markdown (as_markdown market_analysis)
  else show_cached env "market_analysis".

(** Lines 491-501 *)
Definition college_advisor_tab (env : environment) (w : widgets) (llm : model)
  : M unit :=
  if btn_college_recs w then
    _ ← set_attr "selected_career"
          (VStr (career_label (selected_category w) (selected_subcareer w)));
    college_recommendations ←
      generate_college_recommendations (selected_subcareer w) (Some llm);
    _ ← set_attr "college_recommendations" (VOut college_recommendations);
    st_markdown (as_markdown college_recommendations)
  else show_cached env "college_recommendations".

(** Lines 539-541: the pages are read in order; a page that fails ends the
    loop and leaves the text read so far. *)
Fixpoint extract_pages (pages : list (reply str)) (resume_text : str)
  : str * option str :=
  match pages with
  | [] => (resume_text, None)
  | Returns text :: pages' => extract_pages pages' (resume_text ++ text ++ [LF])
  | Throws e :: _ => (resume_text, Some e)
  end.

Definition count (resume_text : str) : str := py (pretty (length resume_text)).

(** Lines 525-567: the text of the uploaded file.  The preview of lines
    562-564 shows it and changes nothing. *)
Definition read_uploaded_file (f : uploaded_file) : M str :=
  try_except
    (if bool_decide (file_extension f = py "txt") then
       resume_text ← call (decode_utf8 f);
       _ ← st_success (py "✅ Loaded " ++ count resume_text
                       ++ py " characters from " ++ name f);
       mret resume_text
     else if bool_decide (file_extension f = py "pdf") then
       match pdf_pages f with
       | ImportError =>
         _ ← st_error (py "❌ PyPDF2 not installed. Install it with: pip install PyPDF2");
         mret []
       | Module_ (Throws e) =>
         _ ← st_error (py "❌ Error reading PDF: " ++ e);
         mret []
       | Module_ (Returns pages) =>
         match extract_pages pages [] with
         | (resume_text, None) =>
           _ ← st_success (py "✅ Extracted " ++ count resume_text
                           ++ py " characters from PDF");
           mret resume_text
         | (resume_text, Some e) =>
           _ ← st_error (py "❌ Error reading PDF: " ++ e);
           mret resume_text
         end
       end
     else if bool_decide (file_extension f = py "docx")
             || bool_decide (file_extension f = py "doc") then
       match docx_paragraphs f with
       | ImportError =>
         _ ← st_error (py "❌ python-docx not installed. Install it with: pip install python-docx");
         mret []
       | Module_ (Throws e) =>
         _ ← st_error (py "❌ Error reading Word document: " ++ e);
         mret []
       | Module_ (Returns paragraphs) =>
         let resume_text := join [LF] paragraphs in
         _ ← st_success (py "✅ Extracted " ++ count resume_text
                         ++ py " characters from Word document");
         mret resume_text
       end
     else mret [])
    (fun e =>
       _ ← st_error (py "❌ Error processing file: " ++ e);
       mret []).

(** Lines 515-575 *)
Definition read_resume (input : resume_input) : M str :=
  match input with
  | UploadResumeFile None => mret []
  | UploadResumeFile (Some uploaded) => read_uploaded_file uploaded
  | PasteResumeText text => mret text
  end.

(** Line 587 *)
Definition choose_target_role (target_role_input selected_subcareer : str) : str :=
  if nonempty target_role_input then target_role_input else selected_subcareer.

(** Lines 583-593: the Analyze Resume button and its [elif]. *)
Definition analyze_resume (env : environment) (clicked : bool)
    (resume_text target_role_input selected_subcareer : str) (llm : model)
  : M unit :=
  if clicked then
    if negb (nonempty resume_text) || (length (strip resume_text) <? 100)%nat then
      st_warning (py "⚠️ Please provide your resume content (at least 100 characters)")
    else
      let target_role := choose_target_role target_role_input selected_subcareer in
      resume_feedback ← generate_resume_feedback resume_text target_role (Some llm);
      _ ← set_attr "resume_feedback" (VOut resume_feedback);
      st_markdown (as_markdown resume_feedback)
  else
    cached ← get_attr "resume_feedback";
    if truthy cached then
      _ ← st_info (py "📋 Showing previous resume analysis");
      st_markdown (as_markdown (to_output env cached))
    else mret tt.

(** Lines 503-593 *)
Definition resume_coach_tab (env : environment) (w : widgets) (llm : model)
  : M unit :=
  resume_text ← read_resume (resume_input_method w);
  analyze_resume env (btn_resume_analysis w) resume_text
                 (target_role_input w) (selected_subcareer w) llm.

(** *** The page *)

(** Lines 407-412 *)
Definition configure_keys (w : widgets) : M unit :=
  if nonempty (google_key w) && nonempty (serpapi_key w) then
    _ ← st_success (py "✅ API keys configured");
    set_attr "api_keys_validated" (VBool true)
  else
    _ ← st_warning (py "⚠️ Provide both API keys to enable live features");
    set_attr "api_keys_validated" (VBool false).

(** Lines 429-432 *)
Definition clear_session_button (w : widgets) : M unit :=
  if clear_session_clicked w then _ ← clear_session; st_rerun
  else mret tt.

(** Lines 459-596, once the model and the agent are there.  Line 464
    looks the chosen category up; for a category of the select box the
    key is there. *)
Definition features (env : environment) (w : widgets) (llm : model)
    (agent_executor : agent) : M unit :=
  match dict_get CAREER_CATEGORIES (selected_category w) with
  | None => raise (py "KeyError")
  | Some _ =>
    _ ← career_insights_tab env w llm;
    _ ← market_analysis_tab env w llm;
    _ ← college_advisor_tab env w llm;
    _ ← resume_coach_tab env w llm;
    create_chat_interface env agent_executor (chat_input w)
  end.

Definition main (env : environment) (w : widgets) : M unit :=
  _ ← initialize_session_state;
  _ ← configure_keys w;
  _ ← clear_session_button w;
  api_keys_validated ← get_attr "api_keys_validated";
  if negb (truthy api_keys_validated) then
    st_info (py "👈 Please provide your Google Gemini and SerpAPI keys in the sidebar to get started.")
  else
    '(llm, tools) ← initialize_llm_and_tools env (google_key w) (serpapi_key w);
    match llm, tools with
    | Some llm, Some (tool :: tools') =>
      agent_executor ← create_agent_with_tools env llm (tool :: tools');
      match agent_executor with
      | None => st_error (py "❌ Agent initialization failed.")
      | Some agent_executor => features env w llm agent_executor
      end
    | _, _ =>
      st_error (py "❌ Failed to initialize AI components. Check your API keys and network.")
    end.

(** Chat interactions one after the other, each with what the run finds
    around it, on the world the one before left. *)
Fixpoint chat_session (steps : list (environment * agent * option str))
    (w : world) : world :=
  match steps with
  | [] => w
  | (env, agent_executor, chat_input) :: steps' =>
    chat_session steps' (create_chat_interface env agent_executor chat_input w).2
  end.

(** ** Predicates the properties are stated with *)

(** The text begins, or ends, with a whitespace character. *)
Definition leading_space (val : str) : bool :=
  match val with
  | [] => false
  | c :: _ => isspace c
  end.

Definition trailing_space (val : str) : bool := leading_space (reverse val).

(** [p] stands in [val] as it is, in one piece. *)
Definition substring (p val : str) : Prop :=
  ∃ before after, val = before ++ p ++ after.

(** The calls of a trace: the events that leave the process. *)
Definition is_call (ev : event) : bool :=
  match ev with
  | Show _ _ => false
  | LlmInvoke _ | AgentRun _ _ => true
  end.

Definition calls (tr : list event) : list event := List.filter is_call tr.

(** The roles a message of the transcript may have. *)
Definition chat_role (m : message) : Prop :=
  role m = py "user" ∨ role m = py "assistant".

(** A computation that calls nothing and leaves the session state as it
    is, however it ends. *)
Definition silent {A} (m : M A) : Prop :=
  ∀ w, ∃ r shown,
    m w = (r, World (session_state w) (trace w ++ shown)) ∧ calls shown = [].


(** ** Further functions of the script *)

(** Lines 20-21 on their own: one closing quote, of either kind, is cut
    off the end. *)
Definition chop_quote (val : str) : str :=
  if endswith val [SQ] || endswith val [DQ] then slice_to val (-1) else val.

(** The characters of a text other than line feeds, in their order. *)
Definition not_LF (c : N) : bool := negb (c =? LF)%N.

Definition without_LF (val : str) : str := List.filter not_LF val.

(** The text [as_markdown] starts from (lines 14-16). *)
Definition text_of (output : py_output) : str :=
  match content_attr output with
  | Some c => c
  | None => py_str output
  end.

(** A run in which no button is pressed and nothing is sent in the chat. *)
Definition nothing_pressed (w : widgets) : bool :=
  negb (clear_session_clicked w)
  && negb (btn_career_insights w) && negb (btn_market_analysis w)
  && negb (btn_college_recs w) && negb (btn_resume_analysis w)
  && match chat_input w with
     | None => true
     | Some prompt => negb (nonempty prompt)
     end.

(** A computation that leaves the entry of the session under [key] as it
    is, however it ends. *)
Definition keeps (key : string) {A} (m : M A) : Prop :=
  ∀ w, session_state (m w).2 !! key = session_state w !! key.

(** A computation that at most adds chat messages at the end of the
    transcript, when there is one. *)
Definition appends_to_transcript {A} (m : M A) : Prop :=
  ∀ w msgs,
    session_state w !! "chat_messages" = Some (VList msgs) →
    ∃ added,
      session_state (m w).2 !! "chat_messages" = Some (VList (msgs ++ added))
      ∧ Forall chat_role added.

(** The contract the four [generate_] functions share, [f] being one of
    them with its arguments before [llm] given, [prompt] its prompt and
    [unable] the start of the text it returns on failure: it ends
    normally and leaves the session alone; without a model object it
    calls nothing and says so; with one it calls it once, on [prompt],
    and hands on what the model returns as it is. *)
Definition guarded_model_call (f : option model → M py_output)
    (prompt unable : str) : Prop :=
  ∀ llm w,
    ∃ output shown,
      f llm w = (Ok output, World (session_state w) (trace w ++ shown))
      ∧ match llm with
        | None =>
          calls shown = [] ∧ output = PStr (unable ++ py "LLM not initialized")
        | Some llm =>
          calls shown = [LlmInvoke prompt]
          ∧ match llm (trace w) prompt with
            | Returns o => output = o ∧ shown = [LlmInvoke prompt]
            | Throws e => output = PStr (unable ++ e)
            end
        end.





(** The four extensions lines 529-559 know. *)
Definition known_extension (ext : str) : bool :=
  bool_decide (ext = py "txt") || bool_decide (ext = py "pdf")
  || bool_decide (ext = py "docx") || bool_decide (ext = py "doc").

(** The text line 541 builds from the texts of pages. *)
Definition pages_text (texts : list str) : str :=
  concat (map (λ text, text ++ [LF]) texts).

(** The buttons pressed and the questions sent in a run, counted. *)
Definition submitted (chat_input : option str) : bool :=
  match chat_input with
  | None => false
  | Some prompt => nonempty prompt
  end.

Definition actions (w : widgets) : nat :=
  Nat.b2n (btn_career_insights w) + (Nat.b2n (btn_market_analysis w)
  + (Nat.b2n (btn_college_recs w) + (Nat.b2n (btn_resume_analysis w)
  + Nat.b2n (submitted (chat_input w))))).

(** A computation that adds at most [n] calls to the trace. *)
Definition at_most_calls (n : nat) {A} (m : M A) : Prop :=
  ∀ w, length (calls (trace (m w).2)) ≤ length (calls (trace w)) + n.
(** * Properties *)

(** ** The string functions on small inputs *)

Example py_arrow : py "→" = [8594]%N.
Proof. reflexivity. Qed.

Example py_laptop : py "💻 T" = [128187; 32; 84]%N.
Proof. reflexivity. Qed.

Example replace_leftmost : replace (py "aaa") (py "aa") (py "b") = py "ba".
Proof. reflexivity. Qed.

Example replace_one_pass : replace [LF; LF; LF; LF] LF3 LF2 = [LF; LF; LF].
Proof. reflexivity. Qed.

Example collapse_five : collapse (py "a" ++ [LF; LF; LF; LF; LF] ++ py "b")
                        = py "a" ++ [LF; LF] ++ py "b".
Proof. reflexivity. Qed.

Example find_quote : find (py "content='x'") [SQ] = 8%Z.
Proof. reflexivity. Qed.

Example find_absent : find (py "content") [SQ] = (-1)%Z.
Proof. reflexivity. Qed.

Example slice_last_two : slice_from [1; 2; 3; 4; 5] (-2) = [4; 5].
Proof. reflexivity. Qed.

Example slice_short : slice_from [1; 2; 3] (-8) = [1; 2; 3].
Proof. reflexivity. Qed.

Example strip_unicode : strip ([160; 12288]%N ++ py "x y" ++ [8232; LF]%N) = py "x y".
Proof. reflexivity. Qed.

Example join_lines : join [LF] [py "a"; py "b"; py "c"] = py "a" ++ [LF] ++ py "b" ++ [LF] ++ py "c".
Proof. reflexivity. Qed.

Example as_markdown_wrapper :
  as_markdown (PStr (py "content='Hi there'")) = py "Hi there".
Proof. reflexivity. Qed.

Example as_markdown_mixed_quotes :
  as_markdown (PStr (wrapper_dq ++ py "it's" ++ [DQ])) = py "s".
Proof. reflexivity. Qed.

Example as_markdown_escaped :
  as_markdown (PStr (py " one



two" ++ [CR; LF]))
  = py "one" ++ [LF; LF] ++ py "two".
Proof. reflexivity. Qed.

Example as_markdown_message :
  as_markdown (PObj (Some (py "# Plan")) (py "content='# Plan' id='run-1'"))
  = py "# Plan".
Proof. reflexivity. Qed.

Example context_preview_two :
  context_preview [Message (py "user") (py "Hi"); Message (py "assistant") (py "Hello")]
  = py "user: Hi" ++ [LF] ++ py "assistant: Hello".
Proof. reflexivity. Qed.

(** ** Strings *)

#[local] Arguments replace : simpl never.

Section strings.
Implicit Types val p old new : str.

Lemma startswith_prefix val p :
  startswith val p = true ↔ ∃ rest, val = p ++ rest.
Proof.
  revert val. induction p as [|c p IH]; intros val; simpl.
  - split; [by exists val | done].
  - destruct val as [|d val]; simpl.
    + split; [done | intros [? ?]; done].
    + rewrite andb_true_iff, N.eqb_eq, IH. split.
      * intros [-> [rest ->]]. eauto.
      * intros [rest [= -> ->]]. eauto.
Qed.

Lemma startswith_length val p :
  startswith val p = true → length p ≤ length val.
Proof.
  intros [rest ->]%startswith_prefix. rewrite length_app. lia.
Qed.

Lemma contains_infix val p :
  contains p val = true ↔ ∃ before after, val = before ++ p ++ after.
Proof.
  induction val as [|c val IH]; simpl.
  - rewrite orb_false_r, startswith_prefix. split.
    + intros [rest E]. exists [], rest. done.
    + intros (before & after & E). destruct before; [eauto|done].
  - rewrite orb_true_iff, startswith_prefix, IH. split.
    + intros [[rest E] | (before & after & ->)].
      * exists [], rest. done.
      * exists (c :: before), after. done.
    + intros ([|d before] & after & E).
      * left. eauto.
      * right. injection E as -> ->. eauto.
Qed.

Lemma contains_char c val : contains [c] val = true ↔ c ∈ val.
Proof.
  rewrite contains_infix. split.
  - intros (before & after & ->). set_solver.
  - intros (before & after & ->)%list_elem_of_split. by exists before, after.
Qed.

Lemma contains_char_false c val : contains [c] val = false ↔ c ∉ val.
Proof.
  rewrite <- contains_char. destruct (contains [c] val); naive_solver.
Qed.

(** [find] agrees with [in]. *)
Lemma find_ge val p : (-1 ≤ find val p)%Z.
Proof.
  induction val as [|c val IH]; simpl; repeat case_match; lia.
Qed.

Lemma find_contains val p : contains p val = true → (0 ≤ find val p)%Z.
Proof.
  induction val as [|c val IH]; simpl.
  - rewrite orb_false_r. intros ->. done.
  - destruct (startswith (c :: val) p); [done|]. simpl. intros H%IH.
    case_match; lia.
Qed.

(** *** [replace] *)

Lemma replace_from_skip old new k val :
  replace_from old new k val = replace_from old new 0 (drop k val).
Proof.
  revert k. induction val as [|c val IH]; intros [|k]; simpl; done.
Qed.

Lemma replace_cons o old new c val :
  replace (c :: val) (o :: old) new =
    if startswith (c :: val) (o :: old)
    then new ++ replace (drop (length old) val) (o :: old) new
    else c :: replace val (o :: old) new.
Proof.
  unfold replace. cbn [replace_from].
  rewrite replace_from_skip.
  by replace (length (o :: old) - 1) with (length old) by (simpl; lia).
Qed.

(** Induction along the scan of [replace]. *)
Lemma replace_ind o old (P : str → Prop) :
  P [] →
  (∀ c val, startswith (c :: val) (o :: old) = true →
            P (drop (length old) val) → P (c :: val)) →
  (∀ c val, startswith (c :: val) (o :: old) = false → P val → P (c :: val)) →
  ∀ val, P val.
Proof.
  intros Hnil Hhit Hmiss val.
  remember (length val) as n eqn:Hn.
  revert val Hn. induction (lt_wf n) as [n _ IH]. intros [|c val] Hn; [done|].
  destruct (startswith (c :: val) (o :: old)) eqn:Hs.
  - apply Hhit; [done|]. eapply IH; [|done].
    rewrite Hn, length_drop. simpl. lia.
  - apply Hmiss; [done|]. eapply IH; [|done]. rewrite Hn. simpl. lia.
Qed.
Lemma replace_absent o old new val :
  contains (o :: old) val = false → replace val (o :: old) new = val.
Proof.
  induction val as [|c val H IH|c val H IH] using (replace_ind o old).
  - done.
  - intros Hc. cbn [contains] in Hc. by rewrite H in Hc.
  - intros Hc. cbn [contains] in Hc. rewrite H in Hc.
    rewrite replace_cons, H, IH; done.
Qed.

Lemma replace_length_le o old new val :
  length new ≤ length (o :: old) →
  length (replace val (o :: old) new) ≤ length val.
Proof.
  intros Hlen.
  induction val as [|c val H IH|c val H IH] using (replace_ind o old).
  - done.
  - rewrite replace_cons, H, length_app.
    apply startswith_length in H. rewrite length_drop in IH.
    cbn [length] in *. lia.
  - rewrite replace_cons, H. cbn [length]. lia.
Qed.

Lemma replace_length_lt o old new val :
  length new < length (o :: old) →
  contains (o :: old) val = true →
  length (replace val (o :: old) new) < length val.
Proof.
  intros Hlen.
  induction val as [|c val H IH|c val H IH] using (replace_ind o old).
  - done.
  - intros _. rewrite replace_cons, H, length_app.
    pose proof (replace_length_le o old new (drop (length old) val)) as Hle.
    apply startswith_length in H. rewrite length_drop in Hle.
    cbn [length] in *. lia.
  - intros Hc. cbn [contains] in Hc. rewrite H in Hc.
    rewrite replace_cons, H. cbn [length]. apply IH in Hc. lia.
Qed.

Lemma elem_of_drop_inv {A} (l : list A) n x : x ∈ drop n l → x ∈ l.
Proof. rewrite <- (take_drop n l) at 2. set_solver. Qed.

Lemma replace_elem o old new val x :
  x ∈ replace val (o :: old) new → x ∈ val ∨ x ∈ new.
Proof.
  induction val as [|c val H IH|c val H IH] using (replace_ind o old).
  - set_solver.
  - rewrite replace_cons, H, elem_of_app.
    intros [Hx|Hx]; [by right|].
    apply IH in Hx as [Hx|Hx]; [|by right].
    apply elem_of_drop_inv in Hx. left. by right.
  - rewrite replace_cons, H. intros [->|Hx]%elem_of_cons; [left; by left|].
    apply IH in Hx as [Hx|Hx]; [left; by right | by right].
Qed.

(** Replacing the one-character text [c] by nothing removes every [c]. *)
Lemma replace_char_gone c val : c ∉ replace val [c] [].
Proof.
  induction val as [|d val H IH|d val H IH] using (replace_ind c []).
  - set_solver.
  - by rewrite replace_cons, H.
  - rewrite replace_cons, H. simpl in H.
    rewrite andb_true_r, N.eqb_neq in H. by apply not_elem_of_cons.
Qed.

(** *** The loop of [collapse] *)

Lemma collapse_loop_fixed n val :
  contains LF3 val = false → collapse_loop n val = val.
Proof. intros H. destruct n; simpl; by rewrite ?H. Qed.

Lemma collapse_step_shorter val :
  contains LF3 val = true → length (replace val LF3 LF2) < length val.
Proof. apply replace_length_lt. simpl. lia. Qed.

(** With [length val] turns or more the loop has left by its test. *)
Lemma collapse_loop_enough n val :
  length val ≤ n → contains LF3 (collapse_loop n val) = false.
Proof.
  revert val. induction n as [|n IH]; intros val Hn.
  - destruct val; [reflexivity | simpl in Hn; lia].
  - simpl. destruct (contains LF3 val) eqn:Hc; [|done].
    apply IH. apply collapse_step_shorter in Hc. lia.
Qed.

(** More turns than that change nothing. *)
Lemma collapse_loop_fuel n m val :
  length val ≤ n → length val ≤ m → collapse_loop n val = collapse_loop m val.
Proof.
  revert m val. induction n as [|n IH]; intros m val Hn Hm.
  - destruct val; [|simpl in Hn; lia]. by destruct m.
  - destruct m as [|m].
    + destruct val; [done | simpl in Hm; lia].
    + simpl. destruct (contains LF3 val) eqn:Hc; [|done].
      apply collapse_step_shorter in Hc. apply IH; lia.
Qed.

Lemma collapse_loop_length n val : length (collapse_loop n val) ≤ length val.
Proof.
  revert val. induction n as [|n IH]; intros val; simpl; [done|].
  destruct (contains LF3 val); [|done].
  etrans; [apply IH|]. apply replace_length_le. simpl. lia.
Qed.

Lemma collapse_loop_elem n val x :
  x ∈ collapse_loop n val → x ∈ val ∨ x = LF.
Proof.
  revert val. induction n as [|n IH]; intros val; simpl; [auto|].
  destruct (contains LF3 val); [|auto].
  intros [[?|Hx]%replace_elem|?]%IH; [auto| |auto].
  right. unfold LF2 in Hx. by repeat (apply elem_of_cons in Hx as [?|Hx]; [done|]);
    apply elem_of_nil in Hx.
Qed.

(** *** [strip] *)

Lemma lstrip_suffix val : ∃ before, val = before ++ lstrip val.
Proof.
  induction val as [|c val [before IH]]; simpl.
  - by exists [].
  - destruct (isspace c).
    + exists (c :: before). simpl. by f_equal.
    + by exists [].
Qed.

Lemma lstrip_leading val : leading_space (lstrip val) = false.
Proof.
  induction val as [|c val IH]; simpl; [done|].
  destruct (isspace c) eqn:Hc; [done|]. simpl. done.
Qed.

Lemma lstrip_fixed val : leading_space val = false → lstrip val = val.
Proof. destruct val as [|c val]; simpl; [done|]. by intros ->. Qed.

Lemma lstrip_snoc val c :
  isspace c = false → lstrip (val ++ [c]) = lstrip val ++ [c].
Proof.
  intros Hc. induction val as [|d val IH]; simpl.
  - by rewrite Hc.
  - by destruct (isspace d).
Qed.

Lemma rstrip_cons c val :
  isspace c = false → rstrip (c :: val) = c :: rstrip val.
Proof.
  intros Hc. unfold rstrip.
  by rewrite reverse_cons, lstrip_snoc, reverse_snoc.
Qed.

Lemma rstrip_prefix val : ∃ after, val = rstrip val ++ after.
Proof.
  unfold rstrip. destruct (lstrip_suffix (reverse val)) as [before E].
  exists (reverse before).
  rewrite <- reverse_app, <- E. by rewrite reverse_involutive.
Qed.

Lemma rstrip_trailing val : trailing_space (rstrip val) = false.
Proof.
  unfold trailing_space, rstrip. rewrite reverse_involutive.
  apply lstrip_leading.
Qed.

Lemma rstrip_fixed val : trailing_space val = false → rstrip val = val.
Proof.
  unfold trailing_space, rstrip. intros ->%lstrip_fixed.
  apply reverse_involutive.
Qed.

Lemma strip_infix val : ∃ before after, val = before ++ strip val ++ after.
Proof.
  unfold strip. destruct (lstrip_suffix val) as [before E].
  destruct (rstrip_prefix (lstrip val)) as [after E'].
  exists before, after. by rewrite <- E', <- E.
Qed.

Lemma strip_leading val : leading_space (strip val) = false.
Proof.
  unfold strip. pose proof (lstrip_leading val) as H.
  destruct (lstrip val) as [|c rest]; [done|].
  simpl in H. by rewrite rstrip_cons.
Qed.

Lemma strip_trailing val : trailing_space (strip val) = false.
Proof. apply rstrip_trailing. Qed.

Lemma strip_fixed val :
  leading_space val = false → trailing_space val = false → strip val = val.
Proof.
  intros Hl Ht. unfold strip. rewrite (lstrip_fixed _ Hl). by apply rstrip_fixed.
Qed.

Lemma strip_length val : length (strip val) ≤ length val.
Proof.
  destruct (strip_infix val) as (before & after & E).
  rewrite E at 2. rewrite !length_app. lia.
Qed.

Lemma strip_elem val x : x ∈ strip val → x ∈ val.
Proof.
  destruct (strip_infix val) as (before & after & E).
  rewrite E at 2. set_solver.
Qed.

Lemma strip_contains p val :
  contains p val = false → contains p (strip val) = false.
Proof.
  intros H. destruct (contains p (strip val)) eqn:Hc; [|done].
  apply contains_infix in Hc as (b & a & E).
  destruct (strip_infix val) as (before & after & E').
  rewrite <- H. symmetry. apply contains_infix.
  exists (before ++ b), (a ++ after). rewrite E', E.
  by rewrite <- !app_assoc.
Qed.
End strings.

(** ** Output normalisation *)

Section as_markdown.
Implicit Types val : str.

Lemma finish_no_CR val : CR ∉ finish val.
Proof.
  unfold finish, collapse. intros H%strip_elem.
  apply collapse_loop_elem in H as [H|H]; [|done].
  by apply replace_char_gone in H.
Qed.

Lemma finish_no_LF3 val : contains LF3 (finish val) = false.
Proof. apply strip_contains. by apply collapse_loop_enough. Qed.

Lemma finish_leading val : leading_space (finish val) = false.
Proof. apply strip_leading. Qed.

Lemma finish_trailing val : trailing_space (finish val) = false.
Proof. apply strip_trailing. Qed.

Lemma finish_length val : length (finish val) ≤ length val.
Proof.
  unfold finish, collapse. etrans; [apply strip_length|].
  etrans; [apply collapse_loop_length|].
  etrans; [apply replace_length_le; simpl; lia|].
  apply replace_length_le; simpl; lia.
Qed.

Lemma finish_shorter val :
  contains backslash_n val = true → length (finish val) < length val.
Proof.
  intros H. unfold finish, collapse.
  eapply Nat.le_lt_trans; [apply strip_length|].
  eapply Nat.le_lt_trans; [apply collapse_loop_length|].
  eapply Nat.le_lt_trans; [apply replace_length_le; simpl; lia|].
  apply replace_length_lt; [simpl; lia | done].
Qed.

Lemma finish_fixed val :
  contains backslash_n val = false → CR ∉ val → contains LF3 val = false →
  leading_space val = false → trailing_space val = false →
  finish val = val.
Proof.
  intros Hbn Hcr%contains_char_false Hlf Hl Ht. unfold finish, collapse.
  rewrite (replace_absent _ _ _ _ Hbn), (replace_absent _ _ _ _ Hcr).
  rewrite (collapse_loop_fixed _ _ Hlf). by apply strip_fixed.
Qed.

Lemma unwrap_fixed val : wrapped val = false → unwrap val = val.
Proof. unfold unwrap. by intros ->. Qed.

Lemma wrapped_quote val :
  wrapped val = true →
  (if contains [SQ] val then find val [SQ] + 1 else find val [DQ] + 1)%Z
  = Z.of_nat (S (Z.to_nat (if contains [SQ] val then find val [SQ]
                           else find val [DQ]))).
Proof.
  intros Hw.
  assert (0 ≤ if contains [SQ] val then find val [SQ] else find val [DQ])%Z as H.
  { destruct (contains [SQ] val) eqn:Hsq; [by apply find_contains|].
    apply find_contains, contains_char.
    apply contains_char_false in Hsq.
    unfold wrapped in Hw. apply orb_true_iff in Hw as [Hw|Hw];
      apply startswith_prefix in Hw as [rest ->].
    - exfalso. apply Hsq. vm_compute app. set_solver.
    - vm_compute app. set_solver. }
  destruct (contains [SQ] val); lia.
Qed.

Lemma unwrap_shorter val :
  wrapped val = true → length (unwrap val) < length val.
Proof.
  intros Hw. unfold unwrap. rewrite Hw.
  rewrite (wrapped_quote _ Hw).
  assert (0 < length val) as Hpos.
  { pose proof (eq_refl : length wrapper_sq = 9).
    pose proof (eq_refl : length wrapper_dq = 9).
    unfold wrapped in Hw. apply orb_true_iff in Hw as [Hw|Hw];
      apply startswith_length in Hw; lia. }
  set (k := Z.to_nat _).
  assert (length (slice_from val (Z.of_nat (S k))) < length val) as Hlt.
  { unfold slice_from. destruct (Z.ltb_spec (Z.of_nat (S k)) 0); [lia|].
    rewrite Nat2Z.id, length_drop. lia. }
  destruct (_ || _); [|done].
  eapply Nat.le_lt_trans; [|exact Hlt].
  unfold slice_to. simpl. rewrite length_take. lia.
Qed.
Lemma as_markdown_fixed val :
  wrapped val = false → contains backslash_n val = false → CR ∉ val →
  contains LF3 val = false → leading_space val = false →
  trailing_space val = false →
  as_markdown (PStr val) = val.
Proof.
  intros Hw Hbn Hcr Hlf Hl Ht. unfold as_markdown. simpl.
  rewrite (unwrap_fixed _ Hw). by apply finish_fixed.
Qed.

Lemma as_markdown_shorter val :
  (wrapped val || contains backslash_n val) = true →
  length (as_markdown (PStr val)) < length val.
Proof.
  intros H. unfold as_markdown. simpl.
  destruct (wrapped val) eqn:Hw.
  - eapply Nat.le_lt_trans; [apply finish_length|]. by apply unwrap_shorter.
  - rewrite (unwrap_fixed _ Hw). by apply finish_shorter.
Qed.

(** C9.  Whatever [as_markdown] is given, the text it returns holds no
    carriage return and no three line feeds in a row, and neither begins
    nor ends with a whitespace character.  (The loop of lines 23-24 is
    given as many turns as the text is long, and that is enough for it to
    end by its own test.) *)
Theorem as_markdown_postcondition (output : py_output) :
  (CR ∉ as_markdown output)
  ∧ contains LF3 (as_markdown output) = false
  ∧ leading_space (as_markdown output) = false
  ∧ trailing_space (as_markdown output) = false.
Proof.
  unfold as_markdown. set (val := unwrap _).
  split; [apply finish_no_CR|].
  split; [apply finish_no_LF3|].
  split; [apply finish_leading | apply finish_trailing].
Qed.

(** C1, as the claim states it, fails: normalising the text
    [content='content='x''] gives [content='x'], and normalising that
    gives [x]. *)
Lemma as_markdown_not_idempotent :
  ¬ ∀ s : str,
      as_markdown (PStr (as_markdown (PStr s))) = as_markdown (PStr s).
Proof.
  intros H. specialize (H (py "content='content='x''")).
  vm_compute in H. discriminate H.
Qed.

(** C1, amended.  Normalising a normalised text [t = as_markdown s] again
    gives [t] exactly when [t] does not begin with one of the two wrapper
    prefixes and holds no backslash followed by the letter n. *)
Theorem as_markdown_idempotent_iff (s : str) :
  as_markdown (PStr (as_markdown (PStr s))) = as_markdown (PStr s)
  ↔ startswith (as_markdown (PStr s)) wrapper_sq = false
    ∧ startswith (as_markdown (PStr s)) wrapper_dq = false
    ∧ contains backslash_n (as_markdown (PStr s)) = false.
Proof.
  change (as_markdown (PStr s)) with (finish (unwrap s)).
  pose proof (finish_no_CR (unwrap s)) as Hcr.
  pose proof (finish_no_LF3 (unwrap s)) as Hlf.
  pose proof (finish_leading (unwrap s)) as Hl.
  pose proof (finish_trailing (unwrap s)) as Ht.
  set (t := finish (unwrap s)) in *.
  assert ((wrapped t || contains backslash_n t) = false
          ↔ startswith t wrapper_sq = false ∧ startswith t wrapper_dq = false
            ∧ contains backslash_n t = false) as <-.
  { unfold wrapped. rewrite !orb_false_iff. tauto. }
  split.
  - intros E. destruct (wrapped t || contains backslash_n t) eqn:H; [|done].
    apply as_markdown_shorter in H. rewrite E in H. lia.
  - intros [Hw Hbn]%orb_false_iff. by apply as_markdown_fixed.
Qed.

Lemma as_markdown_idempotent_iff_witness :
  as_markdown (PStr (as_markdown (PStr (py "  'Plan': step one



step two  "))))
  = as_markdown (PStr (py "  'Plan': step one



step two  ")).
Proof.
  apply (as_markdown_idempotent_iff (py "  'Plan': step one



step two  ")).
  vm_compute. auto.
Defined.
End as_markdown.

(** ** The prompts *)

#[local] Arguments py : simpl never.

Section prompts.
Implicit Types category subcareer resume_text target_role : str.

Lemma substring_contains p val : substring p val ↔ contains p val = true.
Proof. symmetry. apply contains_infix. Qed.

Lemma substring_here before p after : substring p (before ++ p ++ after).
Proof. by exists before, after. Qed.

Lemma substring_later before p val :
  substring p val → substring p (before ++ val).
Proof.
  intros (b & a & ->). exists (before ++ b), a. by rewrite <- app_assoc.
Qed.

(** C3.  Each prompt holds the arguments it was built from as they are, in
    one piece: the category and the role in the career prompt, the role in
    the market and college prompts, the role and the resume text in the
    resume prompt; and that prompt is the text [llm.invoke] is given. *)
Theorem prompts_embed_arguments category subcareer resume_text target_role
    (llm : model) (w : world) :
  (substring category (career_prompt category subcareer)
   ∧ substring subcareer (career_prompt category subcareer)
   ∧ substring subcareer (market_prompt subcareer)
   ∧ substring subcareer (college_prompt subcareer)
   ∧ substring target_role (resume_prompt resume_text target_role)
   ∧ substring resume_text (resume_prompt resume_text target_role))
  ∧ (calls (trace (generate_career_insights category subcareer (Some llm) w).2)
       = calls (trace w) ++ [LlmInvoke (career_prompt category subcareer)]
     ∧ calls (trace (generate_market_analysis subcareer (Some llm) w).2)
       = calls (trace w) ++ [LlmInvoke (market_prompt subcareer)]
     ∧ calls (trace (generate_college_recommendations subcareer (Some llm) w).2)
       = calls (trace w) ++ [LlmInvoke (college_prompt subcareer)]
     ∧ calls (trace (generate_resume_feedback resume_text target_role (Some llm) w).2)
       = calls (trace w) ++ [LlmInvoke (resume_prompt resume_text target_role)]).
Proof.
  split.
  - unfold career_prompt, market_prompt, college_prompt, resume_prompt.
    repeat split;
      repeat first [apply substring_here | apply substring_later].
  - unfold generate_career_insights, generate_market_analysis,
      generate_college_recommendations, generate_resume_feedback,
      try_except, invoke, calls.
    repeat split; destruct (llm _ _); simpl;
      rewrite ?List.filter_app, <- ?app_assoc; simpl; by rewrite ?app_nil_r.
Qed.
End prompts.

(** ** The monad *)

Section monad.
Context {A B : Type}.

Lemma bind_run (m : M A) (f : A → M B) w :
  (m ≫= f) w =
    match m w with
    | (Ok a, w') => f a w'
    | (Raised e, w') => (Raised e, w')
    | (Rerun, w') => (Rerun, w')
    end.
Proof. done. Qed.

Lemma bind_ok (m : M A) (f : A → M B) w a w' :
  m w = (Ok a, w') → (m ≫= f) w = f a w'.
Proof. intros H. by rewrite bind_run, H. Qed.

Lemma try_except_ok (m : M A) (h : str → M A) w a w' :
  m w = (Ok a, w') → try_except m h w = (Ok a, w').
Proof. unfold try_except. by intros ->. Qed.

Lemma try_except_raised (m : M A) (h : str → M A) w e w' :
  m w = (Raised e, w') → try_except m h w = h e w'.
Proof. unfold try_except. by intros ->. Qed.
End monad.

Lemma get_attr_some key v w :
  session_state w !! key = Some v → get_attr key w = (Ok v, w).
Proof. unfold get_attr. by intros ->. Qed.

Lemma get_messages_list l w :
  session_state w !! "chat_messages" = Some (VList l) →
  get_messages w = (Ok l, w).
Proof.
  intros H. unfold get_messages. by rewrite (bind_ok _ _ _ _ _ (get_attr_some _ _ _ H)).
Qed.

Lemma append_message_list l m w :
  session_state w !! "chat_messages" = Some (VList l) →
  append_message m w =
    (Ok tt, World (<["chat_messages" := VList (l ++ [m])]> (session_state w))
                  (trace w)).
Proof.
  intros H. unfold append_message.
  by rewrite (bind_ok _ _ _ _ _ (get_messages_list _ _ H)).
Qed.

Lemma show_messages_run l w :
  show_messages l w =
    (Ok tt, World (session_state w) (trace w ++ map shown l)).
Proof.
  revert w. induction l as [|m l IH]; intros [s tr]; simpl.
  - by rewrite app_nil_r.
  - rewrite bind_run. unfold show_message, emit. simpl.
    rewrite IH. simpl. by rewrite <- app_assoc.
Qed.

Lemma create_chat_interface_run env agent_executor prompt msgs w :
  session_state w !! "chat_messages" = Some (VList msgs) →
  nonempty prompt = true →
  let transcript := msgs ++ [Message (py "user") prompt] in
  let page := trace w ++ map shown msgs ++ [shown (Message (py "user") prompt)] in
  let question := chat_prompt (context_preview transcript) prompt in
  create_chat_interface env agent_executor (Some prompt) w =
    match agent_executor page question with
    | Returns response =>
      (Ok tt,
       World (<["chat_messages" :=
                  VList (transcript ++ [Message (py "assistant") (as_markdown response)])]>
                (session_state w))
             (page ++ [AgentRun question (HAVE_STREAMLIT_CALLBACK env);
                       shown (Message (py "assistant") (as_markdown response))]))
    | Throws e =>
      (Ok tt,
       World (<["chat_messages" :=
                  VList (transcript
                         ++ [Message (py "assistant") (py "❌ Error while answering: " ++ e)])]>
                (session_state w))
             (page ++ [AgentRun question (HAVE_STREAMLIT_CALLBACK env);
                       Show Error (py "❌ Error while answering: " ++ e)]))
    end.
Proof.
  intros Hm Hp transcript page question. unfold create_chat_interface.
  rewrite (bind_ok _ _ _ _ _ (get_messages_list _ _ Hm)).
  rewrite bind_run, show_messages_run, Hp.
  set (w1 := World _ _).
  assert (session_state w1 !! "chat_messages" = Some (VList msgs)) as Hm1 by done.
  rewrite (bind_ok _ _ _ _ _ (append_message_list _ _ _ Hm1)).
  set (w2 := World _ _).
  rewrite bind_run. unfold show_message at 1, emit at 1.
  set (w3 := World _ _).
  assert (session_state w3 !! "chat_messages" = Some (VList transcript)) as Hm3.
  { apply lookup_insert_eq. }
  rewrite (bind_ok _ _ _ _ _ (get_messages_list _ _ Hm3)).
  fold question.
  assert (trace w3 = page) as Hpage.
  { unfold page. simpl. by rewrite <- app_assoc. }
  unfold try_except. rewrite bind_run. unfold run. rewrite Hpage.
  destruct (agent_executor page question) as [response|e].
  - rewrite bind_run. unfold show_message, emit.
    erewrite append_message_list by (simpl; apply lookup_insert_eq).
    simpl. rewrite insert_insert_eq. unfold page, transcript.
    by rewrite <- !app_assoc.
  - rewrite bind_run. unfold st_error, emit.
    erewrite append_message_list by (simpl; apply lookup_insert_eq).
    simpl. rewrite insert_insert_eq. unfold page, transcript.
    by rewrite <- !app_assoc.
Qed.

Lemma create_chat_interface_idle env agent_executor chat_input msgs w :
  session_state w !! "chat_messages" = Some (VList msgs) →
  chat_input = None ∨ chat_input = Some [] →
  create_chat_interface env agent_executor chat_input w =
    (Ok tt, World (session_state w) (trace w ++ map shown msgs)).
Proof.
  intros Hm Hi. unfold create_chat_interface.
  rewrite (bind_ok _ _ _ _ _ (get_messages_list _ _ Hm)).
  rewrite bind_run, show_messages_run. by destruct Hi as [-> | ->].
Qed.

(** The messages one chat interaction adds to a transcript. *)
Lemma create_chat_interface_appends env agent_executor chat_input msgs w :
  session_state w !! "chat_messages" = Some (VList msgs) →
  ∃ added,
    session_state (create_chat_interface env agent_executor chat_input w).2
      !! "chat_messages" = Some (VList (msgs ++ added))
    ∧ Forall chat_role added.
Proof.
  intros Hm.
  destruct chat_input as [[|c prompt]|].
  - exists []. rewrite (create_chat_interface_idle _ _ _ _ _ Hm) by auto.
    by rewrite app_nil_r.
  - rewrite (create_chat_interface_run _ _ _ _ _ Hm) by done.
    destruct (agent_executor _ _) as [response|e]; simpl;
      rewrite lookup_insert_eq, <- app_assoc;
      (eexists; split; [reflexivity|]);
      (apply Forall_cons; split; [by left|]);
      (apply Forall_cons; split; [by right|]); apply Forall_nil_2.
  - exists []. rewrite (create_chat_interface_idle _ _ _ _ _ Hm) by auto.
    by rewrite app_nil_r.
Qed.

(** C4.  Over any sequence of chat interactions the transcript only grows
    at its end: what was there stays, in its order, and every message
    added has the role [user] or [assistant], so that a transcript with
    only such roles keeps only such roles. *)
Theorem chat_transcript_append_only
    (steps : list (environment * agent * option str)) (w : world)
    (msgs : list message) :
  session_state w !! "chat_messages" = Some (VList msgs) →
  ∃ added,
    session_state (chat_session steps w) !! "chat_messages"
      = Some (VList (msgs ++ added))
    ∧ Forall chat_role added
    ∧ (Forall chat_role msgs → Forall chat_role (msgs ++ added)).
Proof.
  revert w msgs. induction steps as [|[[env agent_executor] chat_input] steps IH];
    intros w msgs Hm; simpl.
  - exists []. rewrite app_nil_r. by repeat split.
  - destruct (create_chat_interface_appends env agent_executor chat_input _ _ Hm)
      as (added & Hm' & Hroles).
    destruct (IH _ _ Hm') as (added' & Hm'' & Hroles' & _).
    exists (added ++ added'). rewrite app_assoc. split; [done|].
    assert (Forall chat_role (added ++ added')) as Hall by by apply Forall_app.
    split; [done|]. intros Hmsgs. rewrite <- app_assoc. by apply Forall_app.
Qed.

Lemma chat_transcript_append_only_witness :
  ∃ added,
    session_state
      (chat_session
         [(Environment true (λ _, []) (λ _, Throws []) (λ _, Throws [])
                       (λ _ _, Throws []),
           (λ _ _, Returns (PStr (py "Hello"))) : agent, Some (py "Hi"));
          (Environment true (λ _, []) (λ _, Throws []) (λ _, Throws [])
                       (λ _ _, Throws []),
           (λ _ _, Throws (py "timeout")) : agent, Some (py "And now?"))]
         (World {["chat_messages" := VList []]} []))
      !! "chat_messages" = Some (VList ([] ++ added))
    ∧ Forall chat_role added
    ∧ (Forall chat_role [] → Forall chat_role ([] ++ added)).
Proof.
  apply (chat_transcript_append_only _ (World {["chat_messages" := VList []]} []) []).
  reflexivity.
Defined.

(** ** Calls *)

Lemma calls_app tr1 tr2 : calls (tr1 ++ tr2) = calls tr1 ++ calls tr2.
Proof. apply List.filter_app. Qed.

Lemma calls_shown msgs : calls (map shown msgs) = [].
Proof. by induction msgs. Qed.

Lemma slice_from_last8 {A} (l : list A) :
  slice_from l (-8) = drop (length l - 8) l.
Proof. reflexivity. Qed.



(** ** The feature functions *)

(** The shape the four [generate_] functions share: one call of the
    model inside [try], and the handler that turns an exception into a
    message on the page and a text for the caller. *)
Lemma guarded_invoke_run (llm : model) (prompt shown_text returned_text : str) w :
  try_except (invoke llm prompt)
             (λ e, _ ← st_error (shown_text ++ e);
                   mret (PStr (returned_text ++ e))) w =
    match llm (trace w) prompt with
    | Returns output =>
      (Ok output, World (session_state w) (trace w ++ [LlmInvoke prompt]))
    | Throws e =>
      (Ok (PStr (returned_text ++ e)),
       World (session_state w)
             (trace w ++ [LlmInvoke prompt; Show Error (shown_text ++ e)]))
    end.
Proof.
  unfold try_except, invoke. destruct (llm _ _); [done|].
  rewrite bind_run. unfold st_error, emit. simpl. by rewrite <- app_assoc.
Qed.

(** Without a model object nothing is called. *)
Lemma generate_career_insights_no_llm category subcareer w :
  generate_career_insights category subcareer None w =
    (Ok (PStr (py "❌ Unable to generate career insights. Error: "
               ++ py "LLM not initialized")),
     World (session_state w)
           (trace w ++ [Show Error (py "❌ Error generating career insights: "
                                    ++ py "LLM not initialized")])).
Proof. done. Qed.

(** C6.  When the call of the model, or the run of the agent, raises an
    exception, the operation ends normally all the same: each of the four
    [generate_] functions returns its error text, with the message of the
    exception in it, after showing an error on the page, and the chat
    records its error text as the answer of the assistant.  The trace
    holds the one call that failed and no other. *)
Theorem failures_become_messages env (llm : model) (agent_executor : agent)
    (category subcareer resume_text target_role prompt e : str)
    (msgs : list message) (w : world) :
  (llm (trace w) (career_prompt category subcareer) = Throws e →
   generate_career_insights category subcareer (Some llm) w =
     (Ok (PStr (py "❌ Unable to generate career insights. Error: " ++ e)),
      World (session_state w)
            (trace w ++ [LlmInvoke (career_prompt category subcareer);
                         Show Error (py "❌ Error generating career insights: " ++ e)])))
  ∧ (llm (trace w) (market_prompt subcareer) = Throws e →
     generate_market_analysis subcareer (Some llm) w =
       (Ok (PStr (py "❌ Unable to fetch market analysis. Error: " ++ e)),
        World (session_state w)
              (trace w ++ [LlmInvoke (market_prompt subcareer);
                           Show Error (py "❌ Error generating market analysis: " ++ e)])))
  ∧ (llm (trace w) (college_prompt subcareer) = Throws e →
     generate_college_recommendations subcareer (Some llm) w =
       (Ok (PStr (py "❌ Unable to generate college recommendations. Error: " ++ e)),
        World (session_state w)
              (trace w ++ [LlmInvoke (college_prompt subcareer);
                           Show Error (py "❌ Error generating college recommendations: " ++ e)])))
  ∧ (llm (trace w) (resume_prompt resume_text target_role) = Throws e →
     generate_resume_feedback resume_text target_role (Some llm) w =
       (Ok (PStr (py "❌ Unable to analyze resume. Error: " ++ e)),
        World (session_state w)
              (trace w ++ [LlmInvoke (resume_prompt resume_text target_role);
                           Show Error (py "❌ Error generating resume feedback: " ++ e)])))
  ∧ (session_state w !! "chat_messages" = Some (VList msgs) →
     nonempty prompt = true →
     let transcript := msgs ++ [Message (py "user") prompt] in
     let page := trace w ++ map shown msgs ++ [shown (Message (py "user") prompt)] in
     let question := chat_prompt (context_preview transcript) prompt in
     let err := py "❌ Error while answering: " ++ e in
     agent_executor page question = Throws e →
     create_chat_interface env agent_executor (Some prompt) w =
       (Ok tt,
        World (<["chat_messages" := VList (transcript ++ [Message (py "assistant") err])]>
                 (session_state w))
              (page ++ [AgentRun question (HAVE_STREAMLIT_CALLBACK env);
                        Show Error err]))).
Proof.
  repeat split.
  - intros H. unfold generate_career_insights. by rewrite guarded_invoke_run, H.
  - intros H. unfold generate_market_analysis. by rewrite guarded_invoke_run, H.
  - intros H. unfold generate_college_recommendations.
    by rewrite guarded_invoke_run, H.
  - intros H. unfold generate_resume_feedback. by rewrite guarded_invoke_run, H.
  - intros Hm Hp transcript page question err H.
    rewrite (create_chat_interface_run _ _ _ _ _ Hm Hp).
    fold transcript page question. by rewrite H.
Qed.

Lemma failures_become_messages_witness :
  let env := Environment true (λ _, []) (λ _, Throws []) (λ _, Throws [])
                         (λ _ _, Throws []) in
  let llm : model := λ _ _, Throws (py "quota exceeded") in
  let agent_executor : agent := λ _ _, Throws (py "quota exceeded") in
  let w := World {["chat_messages" := VList []]} [] in
  generate_career_insights (py "💼 Business") (py "Product Manager") (Some llm) w =
    (Ok (PStr (py "❌ Unable to generate career insights. Error: quota exceeded")),
     World (session_state w)
           [LlmInvoke (career_prompt (py "💼 Business") (py "Product Manager"));
            Show Error (py "❌ Error generating career insights: quota exceeded")])
  ∧ session_state (create_chat_interface env agent_executor (Some (py "Hi")) w).2
      !! "chat_messages"
    = Some (VList [Message (py "user") (py "Hi");
                   Message (py "assistant")
                           (py "❌ Error while answering: quota exceeded")]).
Proof.
  intros env llm agent_executor w.
  destruct (failures_become_messages env llm agent_executor
              (py "💼 Business") (py "Product Manager") [] [] (py "Hi")
              (py "quota exceeded") [] w) as (H1 & _ & _ & _ & H5).
  split.
  - rewrite H1 by reflexivity. vm_compute. reflexivity.
  - rewrite H5 by reflexivity. vm_compute. reflexivity.
Defined.

(** A call of [generate_resume_feedback] with a model object ends normally
    and calls the model once. *)
Lemma generate_resume_feedback_run resume_text target_role (llm : model) w :
  ∃ resume_feedback shown,
    generate_resume_feedback resume_text target_role (Some llm) w =
      (Ok resume_feedback,
       World (session_state w)
             (trace w ++ LlmInvoke (resume_prompt resume_text target_role) :: shown))
    ∧ calls shown = [].
Proof.
  unfold generate_resume_feedback. rewrite guarded_invoke_run.
  destruct (llm _ _) as [output|e]; [by exists output, [] | by eexists _, [_]].
Qed.

Lemma strip_nil : strip [] = [].
Proof. done. Qed.

(** C2.  With the Analyze Resume button pressed: a resume text whose
    stripped length is under 100 gets the warning and nothing else (no
    call of the model, the session state as it was, the cached
    [resume_feedback] with it); a resume text of stripped length 100 or
    more goes to [generate_resume_feedback], whose result is stored under
    [resume_feedback] and shown. *)
Theorem resume_minimum_length env (resume_text target_role_input selected_subcareer : str)
    (llm : model) (w : world) :
  (length (strip resume_text) < 100 →
   analyze_resume env true resume_text target_role_input selected_subcareer llm w =
     (Ok tt,
      World (session_state w)
            (trace w ++ [Show Warning (py "⚠️ Please provide your resume content (at least 100 characters)")])))
  ∧ (100 ≤ length (strip resume_text) →
     let target_role := choose_target_role target_role_input selected_subcareer in
     ∃ resume_feedback shown,
       generate_resume_feedback resume_text target_role (Some llm) w =
         (Ok resume_feedback,
          World (session_state w)
                (trace w ++ LlmInvoke (resume_prompt resume_text target_role) :: shown))
       ∧ calls shown = []
       ∧ analyze_resume env true resume_text target_role_input selected_subcareer llm w =
           (Ok tt,
            World (<["resume_feedback" := VOut resume_feedback]> (session_state w))
                  (trace w ++ LlmInvoke (resume_prompt resume_text target_role)
                     :: shown ++ [Show Markdown (as_markdown resume_feedback)]))).
Proof.
  split.
  - intros Hlen. unfold analyze_resume.
    apply Nat.ltb_lt in Hlen. by rewrite Hlen, orb_true_r.
  - intros Hlen target_role.
    destruct (generate_resume_feedback_run resume_text target_role llm w)
      as (resume_feedback & shown & Hrun & Hcalls).
    exists resume_feedback, shown. split; [done|]. split; [done|].
    unfold analyze_resume.
    assert (nonempty resume_text = true) as ->.
    { destruct resume_text; [|done]. rewrite strip_nil in Hlen. simpl in Hlen. lia. }
    apply Nat.ltb_ge in Hlen. rewrite Hlen. simpl.
    fold target_role. rewrite (bind_ok _ _ _ _ _ Hrun).
    rewrite bind_run. unfold set_attr, st_markdown, emit. simpl.
    by rewrite <- app_assoc.
Qed.

Lemma resume_minimum_length_witness :
  let env := Environment true (λ _, []) (λ _, Throws []) (λ _, Throws [])
                         (λ _ _, Throws []) in
  let llm : model := λ _ _, Returns (PStr (py "Looks good")) in
  let w := World {["resume_feedback" := VNone]} [] in
  let short := py "  Ten years of sales.  " in
  let long := replicate 100 120%N in
  analyze_resume env true short [] (py "Data Scientist") llm w =
    (Ok tt,
     World (session_state w)
           [Show Warning (py "⚠️ Please provide your resume content (at least 100 characters)")])
  ∧ session_state (analyze_resume env true long [] (py "Data Scientist") llm w).2
      !! "resume_feedback" = Some (VStr (py "Looks good")).
Proof.
  intros env llm w short long.
  split.
  - apply (resume_minimum_length env short [] (py "Data Scientist") llm w).
    vm_compute. lia.
  - destruct (resume_minimum_length env long [] (py "Data Scientist") llm w)
      as [_ H].
    destruct H as (resume_feedback & shown & Hgen & _ & ->); [vm_compute; lia|].
    simpl. rewrite lookup_insert_eq.
    vm_compute in Hgen. by injection Hgen as <- _.
Defined.

(** ** Computations that call nothing *)

Section silent.
Context {A B : Type}.

Lemma silent_ret (a : A) : silent (mret a).
Proof. intros w. exists (Ok a), []. destruct w. by rewrite app_nil_r. Qed.

Lemma silent_raise (e : str) : silent (raise e : M A).
Proof. intros w. exists (Raised e), []. destruct w. by rewrite app_nil_r. Qed.

Lemma silent_call (r : reply A) : silent (call r).
Proof. destruct r; [apply silent_ret | apply silent_raise]. Qed.

Lemma silent_bind (m : M A) (f : A → M B) :
  silent m → (∀ a, silent (f a)) → silent (m ≫= f).
Proof.
  intros Hm Hf w. destruct (Hm w) as (r & shown & E & Hc).
  rewrite bind_run, E. destruct r as [a|e|].
  - destruct (Hf a (World (session_state w) (trace w ++ shown)))
      as (r' & shown' & E' & Hc').
    exists r', (shown ++ shown'). rewrite E'. simpl.
    by rewrite app_assoc, calls_app, Hc, Hc'.
  - by exists (Raised e), shown.
  - by exists Rerun, shown.
Qed.

Lemma silent_try_except (m : M A) (h : str → M A) :
  silent m → (∀ e, silent (h e)) → silent (try_except m h).
Proof.
  intros Hm Hh w. destruct (Hm w) as (r & shown & E & Hc).
  unfold try_except. rewrite E. destruct r as [a|e|].
  - by exists (Ok a), shown.
  - destruct (Hh e (World (session_state w) (trace w ++ shown)))
      as (r' & shown' & E' & Hc').
    exists r', (shown ++ shown'). rewrite E'. simpl.
    by rewrite app_assoc, calls_app, Hc, Hc'.
  - by exists Rerun, shown.
Qed.
End silent.

Lemma silent_show el text : silent (emit (Show el text)).
Proof. intros w. by exists (Ok tt), [Show el text]. Qed.

Lemma silent_get_attr key : silent (get_attr key).
Proof.
  intros w. unfold get_attr. destruct (session_state w !! key) as [v|].
  - exists (Ok v), []. destruct w. by rewrite app_nil_r.
  - exists (Raised (missing key)), []. destruct w. by rewrite app_nil_r.
Qed.

Ltac silent_step :=
  first
    [ apply silent_bind; [|intros ?]
    | apply silent_try_except; [|intros ?]
    | unfold st_error, st_success, st_info, st_warning, st_markdown;
      apply silent_show
    | apply silent_ret | apply silent_raise | apply silent_call
    | apply silent_get_attr ].

Lemma silent_read_uploaded_file f : silent (read_uploaded_file f).
Proof.
  unfold read_uploaded_file.
  apply silent_try_except; [|intros ?; repeat silent_step].
  repeat case_match; repeat silent_step.
Qed.

Lemma silent_read_resume input : silent (read_resume input).
Proof.
  destruct input as [[f|]|text]; simpl;
    [apply silent_read_uploaded_file | apply silent_ret..].
Qed.

Lemma silent_show_cached env key : silent (show_cached env key).
Proof. unfold show_cached. repeat (silent_step || case_match). Qed.

(** ** The resume tab *)

Lemma dict_get_In d k roles : dict_get d k = Some roles → (k, roles) ∈ d.
Proof.
  induction d as [|[k' v] d IH]; simpl; [done|].
  case_bool_decide as Hk.
  - intros [= ->]. subst. by left.
  - intros H. right. by apply IH.
Qed.

Lemma CAREER_CATEGORIES_roles_nonempty :
  forallb (λ entry, forallb nonempty entry.2) CAREER_CATEGORIES = true.
Proof. vm_compute. reflexivity. Qed.

Lemma valid_selection_nonempty w :
  valid_selection w → selected_subcareer w ≠ [].
Proof.
  intros (roles & Hget%dict_get_In & Hin) E.
  pose proof CAREER_CATEGORIES_roles_nonempty as H.
  rewrite forallb_forall in H.
  apply list_elem_of_In, H in Hget. simpl in Hget.
  rewrite forallb_forall in Hget.
  apply list_elem_of_In, Hget in Hin. by rewrite E in Hin.
Qed.

Lemma choose_target_role_nonempty target_role_input selected_subcareer :
  selected_subcareer ≠ [] →
  choose_target_role target_role_input selected_subcareer ≠ [].
Proof.
  unfold choose_target_role. by destruct target_role_input, selected_subcareer.
Qed.

(** The calls of the button of lines 583-593. *)
Lemma analyze_resume_calls env clicked resume_text target_role_input
    selected_subcareer (llm : model) w :
  let target_role := choose_target_role target_role_input selected_subcareer in
  let after := analyze_resume env clicked resume_text target_role_input
                              selected_subcareer llm w in
  calls (trace after.2) = calls (trace w)
  ∨ calls (trace after.2)
    = calls (trace w) ++ [LlmInvoke (resume_prompt resume_text target_role)].
Proof.
  intros target_role after. subst after. unfold analyze_resume.
  destruct clicked.
  - destruct (_ || _).
    + left. unfold st_warning, emit. cbn [snd trace].
      rewrite calls_app. simpl. by rewrite app_nil_r.
    + right. fold target_role.
      destruct (generate_resume_feedback_run resume_text target_role llm w)
        as (resume_feedback & shown & Hrun & Hcalls).
      rewrite (bind_ok _ _ _ _ _ Hrun), bind_run.
      unfold set_attr, st_markdown, emit. cbn [snd trace].
      unfold calls in *. rewrite !List.filter_app. simpl.
      by rewrite Hcalls, <- app_assoc.
  - left.
    assert (silent (cached ← get_attr "resume_feedback";
                    if truthy cached
                    then _ ← st_info (py "📋 Showing previous resume analysis");
                         st_markdown (as_markdown (to_output env cached))
                    else mret tt)) as Hs.
    { repeat (silent_step || case_match). }
    destruct (Hs w) as (r & shown & -> & Hc). cbn [snd trace].
    by rewrite calls_app, Hc, app_nil_r.
Qed.

(** C8.  The role a resume prompt is built with is never empty: it is the
    target role the user entered when that is not empty, and the role
    chosen in the select box otherwise, which is one of the roles of the
    taxonomy.  The resume tab calls the model with no other prompt than
    the resume prompt for that role. *)
Theorem resume_target_role_nonempty env (w : widgets) (llm : model)
    (world : world) :
  valid_selection w →
  let target_role :=
    choose_target_role (target_role_input w) (selected_subcareer w) in
  target_role ≠ []
  ∧ (calls (trace (resume_coach_tab env w llm world).2) = calls (trace world)
     ∨ ∃ resume_text,
         calls (trace (resume_coach_tab env w llm world).2)
         = calls (trace world)
           ++ [LlmInvoke (resume_prompt resume_text target_role)]).
Proof.
  intros Hvalid target_role. split.
  - by apply choose_target_role_nonempty, valid_selection_nonempty.
  - unfold resume_coach_tab. rewrite bind_run.
    destruct (silent_read_resume (resume_input_method w) world)
      as (r & shown & -> & Hc).
    destruct r as [resume_text|e|]; cbn [snd trace];
      [|left; by rewrite calls_app, Hc, app_nil_r..].
    set (world' := World _ _).
    assert (calls (trace world') = calls (trace world)) as <-.
    { unfold world'. cbn [trace]. by rewrite calls_app, Hc, app_nil_r. }
    destruct (analyze_resume_calls env (btn_resume_analysis w) resume_text
                (target_role_input w) (selected_subcareer w) llm world')
      as [H|H]; [by left | right; by exists resume_text].
Qed.

Lemma resume_target_role_nonempty_witness :
  let env := Environment true (λ _, []) (λ _, Throws []) (λ _, Throws [])
                         (λ _ _, Throws []) in
  let llm : model := λ _ _, Returns (PStr (py "Looks good")) in
  let w := Widgets (py "g") (py "s") false (py "💻 Technology") (py "Data Engineer")
                   false false false (PasteResumeText (replicate 120 120%N))
                   [] true None in
  let world := World ∅ [] in
  choose_target_role (target_role_input w) (selected_subcareer w) ≠ []
  ∧ (calls (trace (resume_coach_tab env w llm world).2) = calls (trace world)
     ∨ ∃ resume_text,
         calls (trace (resume_coach_tab env w llm world).2)
         = calls (trace world)
           ++ [LlmInvoke (resume_prompt resume_text
                 (choose_target_role (target_role_input w) (selected_subcareer w)))]).
Proof.
  intros env llm w world.
  apply (resume_target_role_nonempty env w llm world).
  eexists. split; [vm_compute; reflexivity|].
  vm_compute. repeat first [by left | right].
Defined.

(** ** The session, the keys and the Clear Session button *)

Lemma lookup_delete_all (ks : list string) (s : gmap string value) k :
  foldl (λ s k, delete k s) s ks !! k
  = if decide (k ∈ ks) then None else s !! k.
Proof.
  revert s. induction ks as [|k0 ks IH]; intros s.
  - destruct (decide (k ∈ [])) as [Hin|_]; [by apply elem_of_nil in Hin | done].
  - cbn [foldl]. rewrite IH.
    destruct (decide (k ∈ ks)) as [Hin|Hin].
    + by rewrite decide_True by (by right).
    + destruct (decide (k = k0)) as [->|Hne].
      * rewrite lookup_delete_eq. by rewrite decide_True by (by left).
      * rewrite lookup_delete_ne by done.
        rewrite decide_False; [done|]. by intros [?|?]%elem_of_cons.
Qed.

Lemma clear_session_run w :
  clear_session w = (Ok tt, World ∅ (trace w)).
Proof.
  unfold clear_session. do 2 f_equal. apply map_eq. intros k.
  rewrite lookup_delete_all, lookup_empty.
  destruct (decide _) as [|Hnot]; [done|].
  destruct (session_state w !! k) as [v|] eqn:Hk; [|done].
  exfalso. apply Hnot. apply list_elem_of_fmap. exists (k, v).
  split; [done|]. by apply elem_of_map_to_list.
Qed.

Lemma configure_keys_run w world :
  ∃ shown,
    configure_keys w world =
      (Ok tt,
       World (<["api_keys_validated" :=
                  VBool (nonempty (google_key w) && nonempty (serpapi_key w))]>
                (session_state world))
             (trace world ++ [shown]))
    ∧ is_call shown = false.
Proof.
  unfold configure_keys. destruct (_ && _); by eexists.
Qed.

(** How [main] starts: lines 387-432. *)
Lemma main_start env w world :
  ∃ shown,
    is_call shown = false ∧
    let s := <["api_keys_validated" :=
                 VBool (nonempty (google_key w) && nonempty (serpapi_key w))]>
               (foldl set_default (session_state world) defaults) in
    main env w world =
      if clear_session_clicked w
      then (Rerun, World ∅ (trace world ++ [shown]))
      else
        (if negb (nonempty (google_key w) && nonempty (serpapi_key w)) then
           st_info (py "👈 Please provide your Google Gemini and SerpAPI keys in the sidebar to get started.")
         else
           '(llm, tools) ← initialize_llm_and_tools env (google_key w) (serpapi_key w);
           match llm, tools with
           | Some llm, Some (tool :: tools') =>
             agent_executor ← create_agent_with_tools env llm (tool :: tools');
             match agent_executor with
             | None => st_error (py "❌ Agent initialization failed.")
             | Some agent_executor => features env w llm agent_executor
             end
           | _, _ =>
             st_error (py "❌ Failed to initialize AI components. Check your API keys and network.")
           end)
          (World s (trace world ++ [shown])).
Proof.
  destruct (configure_keys_run w
              (World (foldl set_default (session_state world) defaults) (trace world)))
    as (shown & Hkeys & Hshown).
  exists shown. split; [done|]. intros s.
  unfold main. rewrite bind_run. unfold initialize_session_state at 1.
  rewrite bind_run, Hkeys. cbn [session_state trace].
  rewrite bind_run. unfold clear_session_button.
  destruct (clear_session_clicked w).
  - by rewrite bind_run, clear_session_run.
  - cbn [mret M_ret]. fold s.
    erewrite bind_ok by (apply get_attr_some; apply lookup_insert_eq).
    done.
Qed.





(** C5.  A run in which Clear Session is pressed deletes every key of the
    session and ends in the restart; when the script then initialises the
    session again, the five cached entries are [None], the transcript
    ([chat_messages] and [chat_history]) is the empty list, and
    [api_keys_validated] is [False]. *)
Theorem clear_session_resets env (w : widgets) (world : world) :
  clear_session_clicked w = true →
  let cleared := main env w world in
  let restarted := initialize_session_state cleared.2 in
  cleared.1 = Rerun
  ∧ session_state cleared.2 = ∅
  ∧ session_state restarted.2 !! "career_insights" = Some VNone
  ∧ session_state restarted.2 !! "market_analysis" = Some VNone
  ∧ session_state restarted.2 !! "college_recommendations" = Some VNone
  ∧ session_state restarted.2 !! "resume_feedback" = Some VNone
  ∧ session_state restarted.2 !! "selected_career" = Some VNone
  ∧ session_state restarted.2 !! "chat_messages" = Some (VList [])
  ∧ session_state restarted.2 !! "chat_history" = Some (VList [])
  ∧ session_state restarted.2 !! "api_keys_validated" = Some (VBool false).
Proof.
  intros Hclear cleared restarted. subst restarted cleared.
  destruct (main_start env w world) as (shown & _ & ->).
  rewrite Hclear. cbn [fst snd session_state].
  split; [done|]. split; [done|].
  unfold initialize_session_state. cbn [fst snd session_state].
  repeat split; vm_compute; reflexivity.
Qed.

Lemma clear_session_resets_witness :
  let env := Environment true (λ _, []) (λ _, Throws []) (λ _, Throws [])
                         (λ _ _, Throws []) in
  let w := Widgets (py "g") (py "s") true (py "💻 Technology") (py "Data Engineer")
                   false false false (PasteResumeText []) [] false None in
  let world :=
    World {["career_insights" := VStr (py "An overview");
            "chat_messages" := VList [Message (py "user") (py "Hi")];
            "api_keys_validated" := VBool true]} [] in
  let restarted := initialize_session_state (main env w world).2 in
  session_state restarted.2 !! "career_insights" = Some VNone
  ∧ session_state restarted.2 !! "chat_messages" = Some (VList [])
  ∧ session_state restarted.2 !! "api_keys_validated" = Some (VBool false).
Proof.
  intros env w world restarted.
  destruct (clear_session_resets env w world eq_refl)
    as (_ & _ & H1 & _ & _ & _ & _ & H2 & _ & H3).
  split; [exact H1|]. split; [exact H2 | exact H3].
Defined.

(** ** A run of the whole page *)

(** Both keys given, the model and the agent answering, the Career
    Insights button pressed and a question asked in the chat: the model
    is called once, the agent once, and the session holds the result and
    the two messages. *)
Example main_full_run :
  let llm : model := λ _ _, Returns (PObj (Some (py "# Roadmap")) (py "content='# Roadmap'")) in
  let agent_executor : agent := λ _ _, Returns (PStr (py "Try IIT Bombay.")) in
  let env := Environment false (λ _, []) (λ _, Returns llm)
                         (λ k, Returns (WebSearch k))
                         (λ _ _, Returns agent_executor) in
  let w := Widgets (py "AIza-key") (py "serp-key") false
                   (py "💻 Technology") (py "Data Engineer")
                   true false false (PasteResumeText []) [] false
                   (Some (py "Which college?")) in
  let after := main env w (World ∅ []) in
  after.1 = Ok tt
  ∧ calls (trace after.2)
    = [LlmInvoke (career_prompt (py "💻 Technology") (py "Data Engineer"));
       AgentRun (chat_prompt (py "user: Which college?") (py "Which college?")) false]
  ∧ session_state after.2 !! "career_insights"
    = Some (VOut (PObj (Some (py "# Roadmap")) (py "content='# Roadmap'")))
  ∧ session_state after.2 !! "selected_career"
    = Some (VStr (py "💻 Technology → Data Engineer"))
  ∧ session_state after.2 !! "chat_messages"
    = Some (VList [Message (py "user") (py "Which college?");
                   Message (py "assistant") (py "Try IIT Bombay.")]).
Proof. vm_compute. repeat split; reflexivity. Qed.

(** * Further properties *)

(** ** More on [as_markdown] *)

Section unwrap.
Implicit Types val body rest : str.

Lemma find_first (c : N) (before rest : str) :
  c ∉ before → find (before ++ c :: rest) [c] = Z.of_nat (length before).
Proof.
  induction before as [|d before IH]; intros Hnot.
  - simpl. by rewrite N.eqb_refl.
  - apply not_elem_of_cons in Hnot as [Hne Hnot].
    cbn [app find startswith]. apply N.eqb_neq in Hne. rewrite Hne. simpl.
    rewrite (IH Hnot). destruct (Z.ltb_spec (Z.of_nat (length before)) 0); lia.
Qed.

Lemma endswith_snoc val (c d : N) : endswith (val ++ [c]) [d] = (d =? c)%N.
Proof.
  unfold endswith. rewrite reverse_snoc. simpl. apply andb_true_r.
Qed.

Lemma chop_quote_snoc body (q : N) :
  q = SQ ∨ q = DQ → chop_quote (body ++ [q]) = body.
Proof.
  intros Hq. unfold chop_quote. rewrite !endswith_snoc.
  assert ((SQ =? q)%N || (DQ =? q)%N = true) as ->.
  { destruct Hq as [-> | ->]; done. }
  unfold slice_to. cbn [Z.ltb Z.compare].
  change (Z.to_nat (- (-1))) with 1.
  replace (length (body ++ [q]) - 1) with (length body)
    by (rewrite length_app; simpl; lia).
  by rewrite take_app_length.
Qed.

Lemma wrapper_sq_chars : wrapper_sq = py "content=" ++ [SQ].
Proof. reflexivity. Qed.

Lemma content_eq_no_quote : (SQ ∉ py "content=") ∧ (DQ ∉ py "content=").
Proof. split; apply contains_char_false; reflexivity. Qed.

(** What lines 17-21 do to a text that begins with one of the two
    wrappers, [first] being the text up to the first single quote, or up
    to the first double quote when there is no single one. *)
Lemma unwrap_at_quote (q : N) (first rest : str) :
  wrapped (first ++ q :: rest) = true →
  q ∉ first →
  (q = SQ ∨ (q = DQ ∧ SQ ∉ first ++ q :: rest)) →
  unwrap (first ++ q :: rest) = chop_quote rest.
Proof.
  intros Hw Hfirst Hq. unfold unwrap. rewrite Hw.
  assert ((if contains [SQ] (first ++ q :: rest)
           then find (first ++ q :: rest) [SQ] + 1
           else find (first ++ q :: rest) [DQ] + 1)%Z
          = Z.of_nat (S (length first))) as ->.
  { destruct Hq as [-> | [-> Hsq]].
    - assert (contains [SQ] (first ++ SQ :: rest) = true) as ->.
      { apply contains_char, elem_of_app. right. by left. }
      rewrite find_first by done. lia.
    - apply contains_char_false in Hsq. rewrite Hsq.
      rewrite find_first by done. lia. }
  unfold slice_from. destruct (Z.ltb_spec (Z.of_nat (S (length first))) 0); [lia|].
  rewrite Nat2Z.id.
  replace (drop (S (length first)) (first ++ q :: rest)) with rest; [done|].
  rewrite (cons_middle q first rest), app_assoc.
  rewrite drop_app_length'; [done|]. rewrite length_app. simpl. lia.
Qed.
End unwrap.

(** X1.  Lines 17-21 undo the wrapping: a text put between [content='] and
    a closing single quote comes back as it was, whatever it holds; so
    does a text put between the double-quoted wrapper and a closing double
    quote, when it holds no single quote. *)
Theorem unwrap_round_trip (body : str) :
  unwrap (wrapper_sq ++ body ++ [SQ]) = body
  ∧ (SQ ∉ body → unwrap (wrapper_dq ++ body ++ [DQ]) = body).
Proof.
  destruct content_eq_no_quote as [Hsq Hdq]. split.
  - rewrite wrapper_sq_chars, <- app_assoc. cbn [app].
    rewrite unwrap_at_quote; [by apply chop_quote_snoc; left| |done|by left].
    unfold wrapped. apply orb_true_iff. left. apply startswith_prefix.
    exists (body ++ [SQ]). by rewrite wrapper_sq_chars, <- app_assoc.
  - intros Hbody. unfold wrapper_dq. rewrite <- app_assoc. cbn [app].
    rewrite unwrap_at_quote; [by apply chop_quote_snoc; right| |done|].
    + unfold wrapped. apply orb_true_iff. right. apply startswith_prefix.
      exists (body ++ [DQ]). unfold wrapper_dq. by rewrite <- app_assoc.
    + right. split; [done|]. rewrite elem_of_app, elem_of_cons, elem_of_app.
      intros [?|[?|[?|Hin]]]; [done|done|done|].
      by apply list_elem_of_singleton in Hin.
Qed.

Lemma unwrap_round_trip_witness :
  unwrap (wrapper_sq ++ py "it's a 'plan'" ++ [SQ]) = py "it's a 'plan'"
  ∧ unwrap (wrapper_dq ++ py "# Plan" ++ [DQ]) = py "# Plan".
Proof.
  split.
  - apply (unwrap_round_trip (py "it's a 'plan'")).
  - apply (unwrap_round_trip (py "# Plan")).
    apply contains_char_false. reflexivity.
Defined.

(** X2.  With the double-quoted wrapper the cut is made at the first
    single quote of the text when there is one (line 18 looks for a single
    quote first): the text before it, and the quote, are lost. *)
Theorem unwrap_cuts_at_first_single_quote (before after : str) :
  SQ ∉ before →
  unwrap (wrapper_dq ++ before ++ [SQ] ++ after) = chop_quote after.
Proof.
  intros Hbefore. destruct content_eq_no_quote as [Hsq Hdq].
  rewrite app_assoc. cbn [app].
  apply unwrap_at_quote; [| |by left].
  - unfold wrapped. apply orb_true_iff. right. apply startswith_prefix.
    exists (before ++ SQ :: after). by rewrite <- app_assoc.
  - unfold wrapper_dq. rewrite !elem_of_app.
    intros [[?|Hin]|?]; [done| |done].
    by apply list_elem_of_singleton in Hin.
Qed.

Lemma unwrap_cuts_at_first_single_quote_witness :
  unwrap (wrapper_dq ++ py "Don" ++ [SQ] ++ py "t stop" ++ [DQ]) = py "t stop".
Proof.
  rewrite (unwrap_cuts_at_first_single_quote (py "Don") (py "t stop" ++ [DQ])).
  - reflexivity.
  - apply contains_char_false. reflexivity.
Defined.

Lemma unwrap_length (val : str) : length (unwrap val) ≤ length val.
Proof.
  unfold unwrap. destruct (wrapped val); [|done].
  set (start := if contains [SQ] val then _ else _).
  assert (length (slice_from val start) ≤ length val) as Hfrom.
  { unfold slice_from. destruct (_ <? _)%Z; rewrite length_drop; lia. }
  destruct (_ || _); [|done].
  etrans; [|exact Hfrom]. unfold slice_to.
  destruct (_ <? _)%Z; rewrite length_take; lia.
Qed.

(** X3.  [as_markdown] never returns more characters than the text it
    starts from, the [content] of the output or else its [str()]. *)
Theorem as_markdown_never_longer (output : py_output) :
  length (as_markdown output) ≤ length (text_of output).
Proof.
  unfold as_markdown. fold (text_of output).
  etrans; [apply finish_length | apply unwrap_length].
Qed.

Lemma without_LF_replace (val : str) :
  without_LF (replace val LF3 LF2) = without_LF val.
Proof.
  unfold LF3.
  induction val as [|c val H IH|c val H IH] using (replace_ind LF [LF; LF]).
  - done.
  - rewrite replace_cons, H.
    apply startswith_prefix in H as [rest [= -> ->]].
    simpl in IH. unfold without_LF in *. rewrite List.filter_app. simpl.
    exact IH.
  - rewrite replace_cons, H. unfold without_LF in *. simpl.
    by rewrite IH.
Qed.

Lemma without_LF_collapse_loop n (val : str) :
  without_LF (collapse_loop n val) = without_LF val.
Proof.
  revert val. induction n as [|n IH]; intros val; simpl; [done|].
  destruct (contains LF3 val); [|done]. by rewrite IH, without_LF_replace.
Qed.

(** X4.  The loop of lines 23-24 takes line feeds away and nothing else:
    the other characters of the text stay, in their order; it leaves no
    three line feeds in a row; and a second pass changes nothing. *)
Theorem collapse_drops_only_line_feeds (val : str) :
  without_LF (collapse val) = without_LF val
  ∧ contains LF3 (collapse val) = false
  ∧ collapse (collapse val) = collapse val.
Proof.
  assert (contains LF3 (collapse val) = false) as Hdone.
  { by apply collapse_loop_enough. }
  split; [apply without_LF_collapse_loop|]. split; [done|].
  unfold collapse at 1. by apply collapse_loop_fixed.
Qed.

(** ** More on the session and the set-up *)

Lemma lookup_set_defaults (l : list (string * value)) (s : gmap string value) k :
  foldl set_default s l !! k
  = match s !! k with
    | Some v => Some v
    | None => (list_to_map l : gmap string value) !! k
    end.
Proof.
  revert s. induction l as [|[k0 v0] l IH]; intros s.
  - simpl. rewrite lookup_empty. by destruct (s !! k).
  - cbn [foldl]. rewrite list_to_map_cons, IH. unfold set_default. cbn [fst snd].
    destruct (decide (k = k0)) as [->|Hne].
    + destruct (s !! k0) as [v|] eqn:Hk0.
      * by rewrite Hk0.
      * by rewrite !lookup_insert_eq.
    + destruct (s !! k0) as [v|] eqn:Hk0.
      * destruct (s !! k); [done|]. by rewrite lookup_insert_ne.
      * rewrite !lookup_insert_ne by done. done.
Qed.

Lemma set_defaults_union (l : list (string * value)) (s : gmap string value) :
  foldl set_default s l = s ∪ list_to_map l.
Proof.
  apply map_eq. intros k. rewrite lookup_set_defaults, lookup_union.
  destruct (s !! k), (list_to_map l !! k); done.
Qed.

(** X5.  [initialize_session_state] fills the gaps and nothing else: an
    entry that is in the session stays as it is, a key of the defaults
    that is absent gets its default, the page is not written to; and
    initialising a second time changes nothing. *)
Theorem initialize_session_state_fills_gaps (w : world) :
  initialize_session_state w
  = (Ok tt, World (session_state w ∪ list_to_map defaults) (trace w))
  ∧ initialize_session_state (initialize_session_state w).2
    = initialize_session_state w.
Proof.
  unfold initialize_session_state. cbn [snd session_state trace].
  rewrite !set_defaults_union. split; [done|].
  do 2 f_equal. apply map_eq. intros k. rewrite !lookup_union.
  by destruct (session_state w !! k), (list_to_map defaults !! k).
Qed.


Lemma silent_show_messages l : silent (show_messages l).
Proof.
  intros w. exists (Ok tt), (map shown l).
  by rewrite show_messages_run, calls_shown.
Qed.

Lemma silent_get_messages : silent get_messages.
Proof. unfold get_messages. repeat (silent_step || case_match). Qed.

Lemma silent_initialize_llm_and_tools env google_api_key serpapi_key :
  silent (initialize_llm_and_tools env google_api_key serpapi_key).
Proof.
  unfold initialize_llm_and_tools. repeat (silent_step || case_match).
Qed.

Lemma silent_create_agent_with_tools env llm tools :
  silent (create_agent_with_tools env llm tools).
Proof. unfold create_agent_with_tools. repeat silent_step. Qed.

Lemma silent_chat_idle env agent_executor chat_input :
  match chat_input with
  | None => true
  | Some prompt => negb (nonempty prompt)
  end = true →
  silent (create_chat_interface env agent_executor chat_input).
Proof.
  intros Hidle. unfold create_chat_interface.
  apply silent_bind; [apply silent_get_messages|intros l].
  apply silent_bind; [apply silent_show_messages|intros _].
  destruct chat_input as [prompt|]; [|apply silent_ret].
  apply negb_true_iff in Hidle. rewrite Hidle. apply silent_ret.
Qed.

Lemma silent_analyze_resume_idle env resume_text target_role_input
    selected_subcareer llm :
  silent (analyze_resume env false resume_text target_role_input
                         selected_subcareer llm).
Proof. unfold analyze_resume. repeat (silent_step || case_match). Qed.

Lemma nothing_pressed_spec w :
  nothing_pressed w = true →
  clear_session_clicked w = false ∧ btn_career_insights w = false
  ∧ btn_market_analysis w = false ∧ btn_college_recs w = false
  ∧ btn_resume_analysis w = false
  ∧ match chat_input w with
    | None => true
    | Some prompt => negb (nonempty prompt)
    end = true.
Proof.
  unfold nothing_pressed. rewrite !andb_true_iff, !negb_true_iff. tauto.
Qed.

Lemma silent_features_idle env w llm agent_executor :
  nothing_pressed w = true → silent (features env w llm agent_executor).
Proof.
  intros (_ & H1 & H2 & H3 & H4 & Hchat)%nothing_pressed_spec.
  unfold features. destruct (dict_get _ _); [|apply silent_raise].
  unfold career_insights_tab, market_analysis_tab, college_advisor_tab,
    resume_coach_tab. rewrite H1, H2, H3, H4.
  do 3 (apply silent_bind; [apply silent_show_cached|intros _]).
  apply silent_bind; [|intros _; by apply silent_chat_idle].
  apply silent_bind; [apply silent_read_resume|intros resume_text].
  apply silent_analyze_resume_idle.
Qed.

(** What [main] does after line 432, as one computation. *)
Lemma silent_main_rest_idle env w :
  nothing_pressed w = true →
  silent
    (if negb (nonempty (google_key w) && nonempty (serpapi_key w)) then
       st_info (py "👈 Please provide your Google Gemini and SerpAPI keys in the sidebar to get started.")
     else
       '(llm, tools) ← initialize_llm_and_tools env (google_key w) (serpapi_key w);
       match llm, tools with
       | Some llm, Some (tool :: tools') =>
         agent_executor ← create_agent_with_tools env llm (tool :: tools');
         match agent_executor with
         | None => st_error (py "❌ Agent initialization failed.")
         | Some agent_executor => features env w llm agent_executor
         end
       | _, _ =>
         st_error (py "❌ Failed to initialize AI components. Check your API keys and network.")
       end).
Proof.
  intros Hidle. destruct (negb _); [silent_step|].
  apply silent_bind; [apply silent_initialize_llm_and_tools|intros [llm tools]].
  destruct llm as [llm|]; [|silent_step].
  destruct tools as [[|tool tools']|]; [silent_step| |silent_step].
  apply silent_bind; [apply silent_create_agent_with_tools|intros [a|]].
  - by apply silent_features_idle.
  - silent_step.
Qed.

(** X7.  A run in which nothing is pressed and nothing is asked calls
    neither the model nor the agent, whatever the session holds and
    whether or not the keys are there: cached results are shown again
    without a call.  It changes the session only by filling in the
    defaults that are absent and setting [api_keys_validated]. *)
Theorem idle_run_calls_nothing env (w : widgets) (world : world) :
  nothing_pressed w = true →
  ∃ r shown,
    main env w world
    = (r,
       World (<["api_keys_validated" :=
                  VBool (nonempty (google_key w) && nonempty (serpapi_key w))]>
                (session_state world ∪ list_to_map defaults))
             (trace world ++ shown))
    ∧ calls shown = [].
Proof.
  intros Hidle. destruct (main_start env w world) as (shown0 & Hshown0 & Hmain).
  cbv zeta in Hmain. rewrite Hmain.
  destruct (nothing_pressed_spec _ Hidle) as (-> & _).
  rewrite set_defaults_union.
  destruct (silent_main_rest_idle env w Hidle
              (World (<["api_keys_validated" :=
                          VBool (nonempty (google_key w) && nonempty (serpapi_key w))]>
                        (session_state world ∪ list_to_map defaults))
                     (trace world ++ [shown0])))
    as (r & shown & -> & Hcalls).
  exists r, (shown0 :: shown). cbn [session_state trace].
  split; [by rewrite <- app_assoc|].
  unfold calls in *. simpl. by rewrite Hshown0.
Qed.

Lemma idle_run_calls_nothing_witness :
  let llm : model := λ _ _, Returns (PStr (py "unused")) in
  let agent_executor : agent := λ _ _, Returns (PStr (py "unused")) in
  let env := Environment true (λ _, []) (λ _, Returns llm)
                         (λ k, Returns (WebSearch k))
                         (λ _ _, Returns agent_executor) in
  let w := Widgets (py "AIza-key") (py "serp-key") false
                   (py "🩺 Healthcare") (py "Physiotherapist")
                   false false false (PasteResumeText (py "draft")) [] false None in
  let world :=
    World {["career_insights" := VStr (py "# Roadmap");
            "selected_career" := VStr (py "🩺 Healthcare → Physiotherapist")]} [] in
  ∃ r shown,
    main env w world
    = (r,
       World (<["api_keys_validated" := VBool true]>
                (session_state world ∪ list_to_map defaults))
             (trace world ++ shown))
    ∧ calls shown = [].
Proof.
  intros llm agent_executor env w world.
  apply (idle_run_calls_nothing env w world). reflexivity.
Defined.

(** ** What a run keeps of the session *)

Section keeps.
Context {A B : Type} (key : string).

Lemma keeps_ret (a : A) : keeps key (mret a).
Proof. by intros w. Qed.

Lemma keeps_raise (e : str) : keeps key (raise e : M A).
Proof. by intros w. Qed.

Lemma keeps_call (r : reply A) : keeps key (call r).
Proof. destruct r; by intros w. Qed.

Lemma keeps_bind (m : M A) (f : A → M B) :
  keeps key m → (∀ a, keeps key (f a)) → keeps key (m ≫= f).
Proof.
  intros Hm Hf w. rewrite bind_run. specialize (Hm w).
  destruct (m w) as [[a|e|] w']; [|done..].
  cbn [snd] in Hm. by rewrite Hf.
Qed.

Lemma keeps_try_except (m : M A) (h : str → M A) :
  keeps key m → (∀ e, keeps key (h e)) → keeps key (try_except m h).
Proof.
  intros Hm Hh w. unfold try_except. specialize (Hm w).
  destruct (m w) as [[a|e|] w']; [done| |done].
  cbn [snd] in Hm. by rewrite Hh.
Qed.

Lemma silent_keeps (m : M A) : silent m → keeps key m.
Proof. intros Hm w. by destruct (Hm w) as (r & shown & -> & _). Qed.
End keeps.

Lemma keeps_emit key ev : keeps key (emit ev).
Proof. by intros w. Qed.

Lemma keeps_invoke key llm prompt : keeps key (invoke llm prompt).
Proof. intros w. unfold invoke. by destruct (llm _ _). Qed.

Lemma keeps_set_attr key key' v : key' ≠ key → keeps key (set_attr key' v).
Proof. intros Hne w. simpl. by rewrite lookup_insert_ne. Qed.

Ltac keeps_step :=
  first
    [ apply keeps_bind; [|intros ?]
    | apply keeps_try_except; [|intros ?]
    | unfold st_error, st_success, st_info, st_warning, st_markdown;
      apply keeps_emit
    | apply keeps_ret | apply keeps_raise | apply keeps_call
    | apply keeps_invoke
    | apply keeps_set_attr; discriminate ].

Lemma keeps_generate_career_insights key category subcareer llm :
  keeps key (generate_career_insights category subcareer llm).
Proof. unfold generate_career_insights. destruct llm; repeat keeps_step. Qed.

Lemma keeps_generate_market_analysis key subcareer llm :
  keeps key (generate_market_analysis subcareer llm).
Proof. unfold generate_market_analysis. destruct llm; repeat keeps_step. Qed.

Lemma keeps_generate_college_recommendations key subcareer llm :
  keeps key (generate_college_recommendations subcareer llm).
Proof.
  unfold generate_college_recommendations. destruct llm; repeat keeps_step.
Qed.

Lemma keeps_generate_resume_feedback key resume_text target_role llm :
  keeps key (generate_resume_feedback resume_text target_role llm).
Proof. unfold generate_resume_feedback. destruct llm; repeat keeps_step. Qed.

Section transcript.
Context {A B : Type}.

Lemma keeps_appends (m : M A) :
  keeps "chat_messages" m → appends_to_transcript m.
Proof.
  intros Hm w msgs Hmsgs. exists []. rewrite Hm, app_nil_r. by split.
Qed.

Lemma appends_bind (m : M A) (f : A → M B) :
  appends_to_transcript m → (∀ a, appends_to_transcript (f a)) →
  appends_to_transcript (m ≫= f).
Proof.
  intros Hm Hf w msgs Hmsgs. rewrite bind_run.
  destruct (Hm w msgs Hmsgs) as (added & Hadded & Hroles).
  destruct (m w) as [[a|e|] w']; [|by exists added..].
  cbn [snd] in Hadded.
  destruct (Hf a w' _ Hadded) as (added' & Hadded' & Hroles').
  exists (added ++ added'). rewrite app_assoc. split; [done|].
  by apply Forall_app.
Qed.
End transcript.

Lemma appends_create_chat_interface env agent_executor chat_input :
  appends_to_transcript (create_chat_interface env agent_executor chat_input).
Proof. intros w msgs. apply create_chat_interface_appends. Qed.

Lemma keeps_tabs env w llm :
  keeps "chat_messages" (career_insights_tab env w llm)
  ∧ keeps "chat_messages" (market_analysis_tab env w llm)
  ∧ keeps "chat_messages" (college_advisor_tab env w llm)
  ∧ keeps "chat_messages" (resume_coach_tab env w llm).
Proof.
  repeat split.
  - unfold career_insights_tab. destruct (btn_career_insights w);
      [|apply silent_keeps, silent_show_cached].
    keeps_step; [keeps_step|].
    keeps_step; [apply keeps_generate_career_insights|].
    repeat keeps_step.
  - unfold market_analysis_tab. destruct (btn_market_analysis w);
      [|apply silent_keeps, silent_show_cached].
    keeps_step; [keeps_step|].
    keeps_step; [apply keeps_generate_market_analysis|].
    repeat keeps_step.
  - unfold college_advisor_tab. destruct (btn_college_recs w);
      [|apply silent_keeps, silent_show_cached].
    keeps_step; [keeps_step|].
    keeps_step; [apply keeps_generate_college_recommendations|].
    repeat keeps_step.
  - unfold resume_coach_tab.
    apply keeps_bind; [apply silent_keeps, silent_read_resume|intros text].
    unfold analyze_resume. destruct (btn_resume_analysis w);
      [|apply silent_keeps; repeat (silent_step || case_match)].
    destruct (_ || _); [keeps_step|].
    keeps_step; [apply keeps_generate_resume_feedback|].
    repeat keeps_step.
Qed.

Lemma appends_features env w llm agent_executor :
  appends_to_transcript (features env w llm agent_executor).
Proof.
  destruct (keeps_tabs env w llm) as (H1 & H2 & H3 & H4).
  unfold features. destruct (dict_get _ _); [|apply keeps_appends, keeps_raise].
  apply appends_bind; [by apply keeps_appends|intros _].
  apply appends_bind; [by apply keeps_appends|intros _].
  apply appends_bind; [by apply keeps_appends|intros _].
  apply appends_bind; [by apply keeps_appends|intros _].
  apply appends_create_chat_interface.
Qed.

(** X8.  Over a whole run of the page in which Clear Session is not
    pressed, whatever else is pressed or asked, the transcript is only
    added to at its end, by messages with the role [user] or
    [assistant]: the four tabs and the set-up leave it alone. *)
Theorem main_transcript_append_only env (w : widgets) (world : world)
    (msgs : list message) :
  clear_session_clicked w = false →
  session_state world !! "chat_messages" = Some (VList msgs) →
  ∃ added,
    session_state (main env w world).2 !! "chat_messages"
      = Some (VList (msgs ++ added))
    ∧ Forall chat_role added.
Proof.
  intros Hclear Hmsgs.
  destruct (main_start env w world) as (shown0 & _ & Hmain).
  cbv zeta in Hmain. rewrite Hmain, Hclear. clear Hmain.
  set (world' := World _ _).
  assert (session_state world' !! "chat_messages" = Some (VList msgs)) as Hmsgs'.
  { unfold world'. cbn [session_state].
    rewrite lookup_insert_ne by done. by rewrite lookup_set_defaults, Hmsgs. }
  revert Hmsgs'. generalize world'. clear world' Hmsgs world.
  intros world Hmsgs. revert world msgs Hmsgs.
  change (appends_to_transcript
    (if negb (nonempty (google_key w) && nonempty (serpapi_key w)) then
       st_info (py "👈 Please provide your Google Gemini and SerpAPI keys in the sidebar to get started.")
     else
       '(llm, tools) ← initialize_llm_and_tools env (google_key w) (serpapi_key w);
       match llm, tools with
       | Some llm, Some (tool :: tools') =>
         agent_executor ← create_agent_with_tools env llm (tool :: tools');
         match agent_executor with
         | None => st_error (py "❌ Agent initialization failed.")
         | Some agent_executor => features env w llm agent_executor
         end
       | _, _ =>
         st_error (py "❌ Failed to initialize AI components. Check your API keys and network.")
       end)).
  destruct (negb _); [apply keeps_appends; keeps_step|].
  apply appends_bind;
    [apply keeps_appends, silent_keeps, silent_initialize_llm_and_tools|].
  intros [[llm|] tools]; [|apply keeps_appends; keeps_step].
  destruct tools as [[|tool tools']|]; [apply keeps_appends; keeps_step|
                                        |apply keeps_appends; keeps_step].
  apply appends_bind;
    [apply keeps_appends, silent_keeps, silent_create_agent_with_tools|].
  intros [agent_executor|]; [apply appends_features|].
  apply keeps_appends. keeps_step.
Qed.

Lemma main_transcript_append_only_witness :
  let llm : model := λ _ _, Returns (PStr (py "# Roadmap")) in
  let agent_executor : agent := λ _ _, Throws (py "rate limit") in
  let env := Environment true (λ _, []) (λ _, Returns llm)
                         (λ k, Returns (WebSearch k))
                         (λ _ _, Returns agent_executor) in
  let w := Widgets (py "AIza-key") (py "serp-key") false
                   (py "💼 Business") (py "Brand Manager")
                   true true true (PasteResumeText []) [] true
                   (Some (py "And salaries?")) in
  let world :=
    World {["chat_messages" := VList [Message (py "user") (py "Hi");
                                       Message (py "assistant") (py "Hello")]]} [] in
  ∃ added,
    session_state (main env w world).2 !! "chat_messages"
      = Some (VList ([Message (py "user") (py "Hi");
                      Message (py "assistant") (py "Hello")] ++ added))
    ∧ Forall chat_role added.
Proof.
  intros llm agent_executor env w world.
  apply (main_transcript_append_only env w world); reflexivity.
Defined.



(** ** More on the feature functions and the chat *)

(** X10.  Each of the four [generate_] functions ends normally and leaves
    the session alone.  Without a model object it makes no call and
    returns its error text with the reason [LLM not initialized]; with
    one it makes exactly one call, on its own prompt, and returns what
    the model returned, not normalised, or its error text with the
    message of the exception. *)
Theorem generate_functions_contract (category subcareer resume_text target_role : str) :
  guarded_model_call (generate_career_insights category subcareer)
    (career_prompt category subcareer)
    (py "❌ Unable to generate career insights. Error: ")
  ∧ guarded_model_call (generate_market_analysis subcareer)
      (market_prompt subcareer)
      (py "❌ Unable to fetch market analysis. Error: ")
  ∧ guarded_model_call (generate_college_recommendations subcareer)
      (college_prompt subcareer)
      (py "❌ Unable to generate college recommendations. Error: ")
  ∧ guarded_model_call (generate_resume_feedback resume_text target_role)
      (resume_prompt resume_text target_role)
      (py "❌ Unable to analyze resume. Error: ").
Proof.
  repeat split; intros [llm|] w;
    unfold generate_career_insights, generate_market_analysis,
      generate_college_recommendations, generate_resume_feedback;
    try (rewrite guarded_invoke_run;
         destruct (llm (trace w) _) as [o|e];
         eexists _, _; (split; [reflexivity|]); by repeat split);
    eexists _, [_]; (split; [reflexivity|]); by repeat split.
Qed.

(** X11.  A chat without a submission shows the transcript again, message
    by message in its order, and does nothing else: no agent run, the
    session as it was.  Where the session has no [chat_messages] at all,
    the read of line 344 raises before anything is shown, recorded or
    run, with or without a submission. *)
Theorem chat_without_submission env (agent_executor : agent)
    (chat_input : option str) (msgs : list message) (w : world) :
  (session_state w !! "chat_messages" = Some (VList msgs) →
   chat_input = None ∨ chat_input = Some [] →
   create_chat_interface env agent_executor chat_input w
   = (Ok tt, World (session_state w) (trace w ++ map shown msgs)))
  ∧ (session_state w !! "chat_messages" = None →
     create_chat_interface env agent_executor chat_input w
     = (Raised (missing "chat_messages"), w)).
Proof.
  split.
  - apply create_chat_interface_idle.
  - intros Hnone. unfold create_chat_interface, get_messages.
    rewrite !bind_run. unfold get_attr. by rewrite Hnone.
Qed.

Lemma chat_without_submission_witness :
  let env := Environment true (λ _, []) (λ _, Throws []) (λ _, Throws [])
                         (λ _ _, Throws []) in
  let agent_executor : agent := λ _ _, Returns (PStr (py "unused")) in
  let msgs := [Message (py "user") (py "Hi"); Message (py "assistant") (py "Hello")] in
  create_chat_interface env agent_executor None
    (World {["chat_messages" := VList msgs]} [])
  = (Ok tt, World {["chat_messages" := VList msgs]}
                  [Show (ChatMessage (py "user")) (py "Hi");
                   Show (ChatMessage (py "assistant")) (py "Hello")])
  ∧ create_chat_interface env agent_executor (Some (py "Hi")) (World ∅ [])
    = (Raised (missing "chat_messages"), World ∅ []).
Proof.
  intros env agent_executor msgs. split.
  - exact (proj1 (chat_without_submission env agent_executor None msgs
                    (World {["chat_messages" := VList msgs]} []))
                 eq_refl (or_introl eq_refl)).
  - exact (proj2 (chat_without_submission env agent_executor (Some (py "Hi")) []
                    (World ∅ [])) eq_refl).
Defined.

Lemma last_two {A} (l : list A) (a b : A) : last (l ++ [a; b]) = Some b.
Proof.
  replace (l ++ [a; b]) with ((l ++ [a]) ++ [b]) by (by rewrite <- app_assoc).
  apply last_snoc.
Qed.

(** X12.  A chat submission adds exactly two messages to the transcript:
    the question as it was typed, with the role [user], and then one
    answer with the role [assistant], which is the normalised response of
    the agent when the run returns and the error text when it raises.
    The answer recorded is the text shown last on the page. *)
Theorem chat_submission_adds_question_and_answer env (agent_executor : agent)
    (prompt : str) (msgs : list message) (w : world) :
  session_state w !! "chat_messages" = Some (VList msgs) →
  nonempty prompt = true →
  let page := trace w ++ map shown msgs ++ [shown (Message (py "user") prompt)] in
  let question :=
    chat_prompt (context_preview (msgs ++ [Message (py "user") prompt])) prompt in
  let after := (create_chat_interface env agent_executor (Some prompt) w).2 in
  ∃ answer,
    session_state after !! "chat_messages"
    = Some (VList (msgs ++ [Message (py "user") prompt;
                            Message (py "assistant") answer]))
    ∧ match agent_executor page question with
      | Returns response =>
        answer = as_markdown response
        ∧ last (trace after) = Some (Show (ChatMessage (py "assistant")) answer)
      | Throws e =>
        answer = py "❌ Error while answering: " ++ e
        ∧ last (trace after) = Some (Show Error answer)
      end.
Proof.
  intros Hm Hp page question after. subst after.
  rewrite (create_chat_interface_run _ _ _ _ _ Hm Hp). fold page question.
  destruct (agent_executor page question) as [response|e]; eexists;
    cbn [snd session_state trace];
    (split; [by rewrite lookup_insert_eq, <- app_assoc|]);
    (split; [reflexivity|]); apply last_two.
Qed.

Lemma chat_submission_adds_question_and_answer_witness :
  let env := Environment false (λ _, []) (λ _, Throws []) (λ _, Throws [])
                         (λ _ _, Throws []) in
  let agent_executor : agent := λ _ _, Returns (PStr (py "content='Try NIT Trichy.'")) in
  session_state (create_chat_interface env agent_executor (Some (py "Which NIT?"))
                   (World {["chat_messages" := VList []]} [])).2
    !! "chat_messages"
  = Some (VList [Message (py "user") (py "Which NIT?");
                 Message (py "assistant") (py "Try NIT Trichy.")]).
Proof.
  intros env agent_executor.
  assert (session_state (World {["chat_messages" := VList []]} [])
            !! "chat_messages" = Some (VList [])) as Hm by reflexivity.
  destruct (chat_submission_adds_question_and_answer env agent_executor
              (py "Which NIT?") [] (World {["chat_messages" := VList []]} [])
              Hm eq_refl) as (answer & -> & Hanswer).
  vm_compute in Hanswer. destruct Hanswer as [-> _]. reflexivity.
Defined.

Lemma join_snoc (sep : str) (parts : list str) (p : str) :
  ∃ before, join sep (parts ++ [p]) = before ++ p.
Proof.
  induction parts as [|q parts [before IH]].
  - by exists [].
  - exists (q ++ sep ++ before). cbn [app].
    destruct (parts ++ [p]) as [|r rest] eqn:E.
    + by destruct parts.
    + cbn [join]. cbn [join] in IH. rewrite IH. by rewrite <- !app_assoc.
Qed.

Lemma slice_last8_snoc {A} (l : list A) (x : A) :
  slice_from (l ++ [x]) (-8) = slice_from l (-7) ++ [x].
Proof.
  rewrite slice_from_last8. unfold slice_from. cbn [Z.ltb Z.compare].
  change (Z.to_nat (- (-7))) with 7. rewrite length_app. cbn [length].
  replace (length l + 1 - 8) with (length l - 7) by lia.
  apply drop_app_le. lia.
Qed.

(** X13.  The chat prompt holds the conversation context and the question
    as they are, each in one piece; and since the question is appended to
    the transcript before the context is taken (line 349), the context
    itself ends with the line of that question: the agent reads the
    question twice. *)
Theorem chat_prompt_embeds_context_and_question (context prompt : str)
    (msgs : list message) :
  substring context (chat_prompt context prompt)
  ∧ substring prompt (chat_prompt context prompt)
  ∧ ∃ before,
      context_preview (msgs ++ [Message (py "user") prompt])
      = before ++ py "user: " ++ prompt.
Proof.
  split; [|split].
  - unfold chat_prompt. apply substring_here.
  - unfold chat_prompt. do 2 apply substring_later. apply substring_here.
  - unfold context_preview. rewrite slice_last8_snoc, map_app. cbn [map].
    destruct (join_snoc [LF] (map context_line (slice_from msgs (-7)))
                (context_line (Message (py "user") prompt))) as [before ->].
    exists before. unfold context_line. cbn [role content].
    by rewrite (app_assoc (py "user") (py ": ") prompt).
Qed.

(** ** The cached results *)

Lemma show_cached_hit env key (cached : py_output) (label : str) w :
  session_state w !! key = Some (VOut cached) →
  truthy (VOut cached) = true →
  session_state w !! "selected_career" = Some (VStr label) →
  show_cached env key w
  = (Ok tt,
     World (session_state w)
           (trace w ++ [Show Info (py "📋 Showing cached results for: **"
                                   ++ label ++ py "**");
                        Show Markdown (as_markdown cached)])).
Proof.
  intros Hkey Htruthy Hlabel. unfold show_cached.
  rewrite (bind_ok _ _ _ _ _ (get_attr_some _ _ _ Hkey)), Htruthy.
  rewrite (bind_ok _ _ _ _ _ (get_attr_some _ _ _ Hlabel)).
  rewrite bind_run. unfold st_info, st_markdown, emit. cbn.
  by rewrite <- app_assoc.
Qed.

Lemma generate_career_insights_run category subcareer (llm : model) w :
  ∃ career_insights shown,
    generate_career_insights category subcareer (Some llm) w
    = (Ok career_insights, World (session_state w) (trace w ++ shown)).
Proof.
  unfold generate_career_insights. rewrite guarded_invoke_run.
  destruct (llm _ _); by eexists _, _.
Qed.

Lemma generate_market_analysis_run subcareer (llm : model) w :
  ∃ market_analysis shown,
    generate_market_analysis subcareer (Some llm) w
    = (Ok market_analysis, World (session_state w) (trace w ++ shown)).
Proof.
  unfold generate_market_analysis. rewrite guarded_invoke_run.
  destruct (llm _ _); by eexists _, _.
Qed.

Lemma career_insights_tab_pressed env w (llm : model) world :
  btn_career_insights w = true →
  ∃ career_insights shown,
    career_insights_tab env w llm world
    = (Ok tt,
       World (<["career_insights" := VOut career_insights]>
                (<["selected_career" :=
                     VStr (career_label (selected_category w) (selected_subcareer w))]>
                   (session_state world)))
             (trace world ++ shown ++ [Show Markdown (as_markdown career_insights)])).
Proof.
  intros Hbtn. unfold career_insights_tab. rewrite Hbtn.
  rewrite bind_run. unfold set_attr at 1. set (world1 := World _ _).
  destruct (generate_career_insights_run (selected_category w)
              (selected_subcareer w) llm world1) as (out & shown & Hrun).
  rewrite (bind_ok _ _ _ _ _ Hrun), bind_run.
  unfold set_attr, st_markdown, emit. exists out, shown. cbn.
  by rewrite <- app_assoc.
Qed.

Lemma market_analysis_tab_pressed env w (llm : model) world :
  btn_market_analysis w = true →
  ∃ market_analysis shown,
    market_analysis_tab env w llm world
    = (Ok tt,
       World (<["market_analysis" := VOut market_analysis]>
                (<["selected_career" :=
                     VStr (career_label (selected_category w) (selected_subcareer w))]>
                   (session_state world)))
             (trace world ++ shown ++ [Show Markdown (as_markdown market_analysis)])).
Proof.
  intros Hbtn. unfold market_analysis_tab. rewrite Hbtn.
  rewrite bind_run. unfold set_attr at 1. set (world1 := World _ _).
  destruct (generate_market_analysis_run (selected_subcareer w) llm world1)
    as (out & shown & Hrun).
  rewrite (bind_ok _ _ _ _ _ Hrun), bind_run.
  unfold set_attr, st_markdown, emit. exists out, shown. cbn.
  by rewrite <- app_assoc.
Qed.

(** X14.  What the Career Insights button stores is what a later run
    shows from the cache: pressing it stores the result and the label of
    the selection and shows the normalised result; a later run without
    the button, on that session, shows the same normalised text under
    that label and calls nothing.  (A result that is the empty text is
    stored but not shown again: line 476 tests it for truth.) *)
Theorem career_insights_shown_again env (w w' : widgets) (llm llm' : model)
    (world : world) (page : list event) :
  btn_career_insights w = true →
  btn_career_insights w' = false →
  let pressed := (career_insights_tab env w llm world).2 in
  ∃ career_insights,
    last (trace pressed) = Some (Show Markdown (as_markdown career_insights))
    ∧ session_state pressed !! "career_insights" = Some (VOut career_insights)
    ∧ career_insights_tab env w' llm' (World (session_state pressed) page)
      = if truthy (VOut career_insights) then
          (Ok tt,
           World (session_state pressed)
                 (page ++ [Show Info (py "📋 Showing cached results for: **"
                                      ++ career_label (selected_category w)
                                                      (selected_subcareer w)
                                      ++ py "**");
                           Show Markdown (as_markdown career_insights)]))
        else (Ok tt, World (session_state pressed) page).
Proof.
  intros Hbtn Hbtn' pressed. subst pressed.
  destruct (career_insights_tab_pressed env w llm world Hbtn)
    as (out & shown & ->).
  exists out. cbn [snd session_state trace].
  split; [by rewrite app_assoc, last_snoc|].
  split; [by rewrite lookup_insert_eq|].
  unfold career_insights_tab. rewrite Hbtn'.
  destruct (truthy (VOut out)) eqn:Htruthy.
  - apply (show_cached_hit env "career_insights" out _ (World _ page));
      [cbn [session_state]; apply lookup_insert_eq|done|].
    cbn [session_state]. rewrite lookup_insert_ne by done.
    apply lookup_insert_eq.
  - unfold show_cached.
    erewrite bind_ok
      by (apply get_attr_some; cbn [session_state]; apply lookup_insert_eq).
    by rewrite Htruthy.
Qed.

Lemma career_insights_shown_again_witness :
  let env := Environment true (λ _, []) (λ _, Throws []) (λ _, Throws [])
                         (λ _ _, Throws []) in
  let llm : model := λ _ _, Returns (PObj (Some (py "# Roadmap")) (py "content='# Roadmap'")) in
  let w := Widgets (py "g") (py "s") false (py "💻 Technology") (py "Data Engineer")
                   true false false (PasteResumeText []) [] false None in
  let w' := Widgets (py "g") (py "s") false (py "💼 Business") (py "Brand Manager")
                    false false false (PasteResumeText []) [] false None in
  let pressed := (career_insights_tab env w llm (World ∅ [])).2 in
  trace (career_insights_tab env w' llm (World (session_state pressed) [])).2
  = [Show Info (py "📋 Showing cached results for: **💻 Technology → Data Engineer**");
     Show Markdown (py "# Roadmap")].
Proof.
  intros env llm w w' pressed. subst pressed.
  destruct (career_insights_shown_again env w w' llm llm (World ∅ []) []
              eq_refl eq_refl) as (out & _ & Hout & Hagain).
  rewrite Hagain. vm_compute in Hout. injection Hout as <-. reflexivity.
Defined.

(** X15.  The label of the cached results is one entry,
    [selected_career], that the three buttons share: after Career
    Insights was generated for one selection and Market Analysis for
    another, a run that shows the cached Career Insights shows the result
    of the first under the label of the second. *)
Theorem cached_label_is_last_selection env (w1 w2 w3 : widgets)
    (llm1 llm2 llm3 : model) (world : world) :
  btn_career_insights w1 = true →
  btn_market_analysis w2 = true →
  btn_career_insights w3 = false →
  let world1 := (career_insights_tab env w1 llm1 world).2 in
  let world2 := (market_analysis_tab env w2 llm2 world1).2 in
  ∃ career_insights,
    session_state world1 !! "career_insights" = Some (VOut career_insights)
    ∧ (truthy (VOut career_insights) = true →
       career_insights_tab env w3 llm3 world2
       = (Ok tt,
          World (session_state world2)
                (trace world2
                 ++ [Show Info (py "📋 Showing cached results for: **"
                                ++ career_label (selected_category w2)
                                                (selected_subcareer w2)
                                ++ py "**");
                     Show Markdown (as_markdown career_insights)]))).
Proof.
  intros Hbtn1 Hbtn2 Hbtn3 world1 world2. subst world2 world1.
  destruct (career_insights_tab_pressed env w1 llm1 world Hbtn1)
    as (out & shown1 & ->). cbn [snd].
  destruct (market_analysis_tab_pressed env w2 llm2
              (World (<["career_insights" := VOut out]>
                        (<["selected_career" :=
                             VStr (career_label (selected_category w1)
                                                (selected_subcareer w1))]>
                           (session_state world)))
                     (trace world ++ shown1 ++ [Show Markdown (as_markdown out)]))
              Hbtn2) as (out2 & shown2 & ->).
  exists out. cbn [snd session_state trace].
  split; [apply lookup_insert_eq|]. intros Htruthy.
  unfold career_insights_tab. rewrite Hbtn3.
  apply (show_cached_hit env "career_insights" out _ (World _ _));
    cbn [session_state]; [|done|].
  - rewrite !lookup_insert_ne by done. apply lookup_insert_eq.
  - rewrite lookup_insert_ne by done. apply lookup_insert_eq.
Qed.

Lemma cached_label_is_last_selection_witness :
  let env := Environment true (λ _, []) (λ _, Throws []) (λ _, Throws [])
                         (λ _ _, Throws []) in
  let llm1 : model := λ _ _, Returns (PStr (py "Insights for data engineers")) in
  let llm2 : model := λ _ _, Returns (PStr (py "Market for brand managers")) in
  let w1 := Widgets (py "g") (py "s") false (py "💻 Technology") (py "Data Engineer")
                    true false false (PasteResumeText []) [] false None in
  let w2 := Widgets (py "g") (py "s") false (py "💼 Business") (py "Brand Manager")
                    false true false (PasteResumeText []) [] false None in
  let w3 := Widgets (py "g") (py "s") false (py "💼 Business") (py "Brand Manager")
                    false false false (PasteResumeText []) [] false None in
  let world1 := (career_insights_tab env w1 llm1 (World ∅ [])).2 in
  let world2 := (market_analysis_tab env w2 llm2 world1).2 in
  trace (career_insights_tab env w3 llm2 (World (session_state world2) [])).2
  = [Show Info (py "📋 Showing cached results for: **💼 Business → Brand Manager**");
     Show Markdown (py "Insights for data engineers")].
Proof.
  intros env llm1 llm2 w1 w2 w3 world1 world2. subst world2 world1.
  destruct (cached_label_is_last_selection env w1 w2 w3 llm1 llm2 llm2
              (World ∅ []) eq_refl eq_refl eq_refl) as (out & Hout & _).
  vm_compute in Hout. injection Hout as <-. vm_compute. reflexivity.
Defined.

(** ** The uploaded file and the keys *)

(** X16.  Reading an uploaded file lets no exception out, calls nothing
    and leaves the session alone.  It shows nothing for an extension it
    does not know, and the text is then empty; for the others it shows
    one message, a success or an error; and after an error the text is
    empty unless the file is a PDF. *)
Theorem read_uploaded_file_never_raises (f : uploaded_file) (w : world) :
  ∃ resume_text shown,
    read_uploaded_file f w
    = (Ok resume_text, World (session_state w) (trace w ++ shown))
    ∧ (if known_extension (file_extension f)
       then ∃ text, shown = [Show Success text]
                    ∨ (shown = [Show Error text]
                       ∧ (file_extension f ≠ py "pdf" → resume_text = []))
       else shown = [] ∧ resume_text = []).
Proof.
  unfold read_uploaded_file, try_except, known_extension.
  destruct (bool_decide (file_extension f = py "txt")) eqn:Htxt.
  { cbn [orb]. rewrite bind_run.
    destruct (decode_utf8 f) as [text|e]; eexists _, [_];
      (split; [reflexivity|]); eexists; [by left | by right]. }
  destruct (bool_decide (file_extension f = py "pdf")) eqn:Hpdf.
  { cbn [orb]. apply bool_decide_eq_true in Hpdf.
    destruct (pdf_pages f) as [|[pages|e]];
      [eexists _, [_]; (split; [reflexivity|]); eexists; by right
      | |eexists _, [_]; (split; [reflexivity|]); eexists; by right].
    destruct (extract_pages pages []) as [text [e|]];
      eexists _, [_]; (split; [reflexivity|]); eexists;
      [right; by split | by left]. }
  cbn [orb]. destruct (_ || _).
  - destruct (docx_paragraphs f) as [|[paragraphs|e]];
      eexists _, [_]; (split; [reflexivity|]); eexists;
      [by right | by left | by right].
  - exists [], []. destruct w. by rewrite app_nil_r.
Qed.

Lemma extract_pages_prefix (texts : list str) (rest : list (reply str))
    (resume_text : str) :
  extract_pages (map Returns texts ++ rest) resume_text
  = extract_pages rest (resume_text ++ pages_text texts).
Proof.
  revert resume_text. induction texts as [|text texts IH]; intros resume_text.
  - unfold pages_text. simpl. by rewrite app_nil_r.
  - cbn [map app extract_pages]. rewrite IH. f_equal.
    unfold pages_text. cbn [map concat]. by rewrite <- !app_assoc.
Qed.

(** X17.  A PDF is read page by page (lines 539-541).  When every page
    gives its text, the resume text is the texts of the pages, each
    followed by a line feed, and a success is shown.  When a page fails,
    the error is shown, the pages after it are not read, and the resume
    text is what the pages before it gave: it is not reset. *)
Theorem pdf_pages_read_in_order (f : uploaded_file) (texts : list str)
    (e : str) (rest : list (reply str)) (w : world) :
  file_extension f = py "pdf" →
  (pdf_pages f = Module_ (Returns (map Returns texts)) →
   read_uploaded_file f w
   = (Ok (pages_text texts),
      World (session_state w)
            (trace w ++ [Show Success (py "✅ Extracted " ++ count (pages_text texts)
                                       ++ py " characters from PDF")])))
  ∧ (pdf_pages f = Module_ (Returns (map Returns texts ++ Throws e :: rest)) →
     read_uploaded_file f w
     = (Ok (pages_text texts),
        World (session_state w)
              (trace w ++ [Show Error (py "❌ Error reading PDF: " ++ e)]))).
Proof.
  intros Hext. unfold read_uploaded_file, try_except. rewrite Hext.
  assert (bool_decide (py "pdf" = py "txt") = false) as -> by reflexivity.
  assert (bool_decide (py "pdf" = py "pdf") = true) as -> by reflexivity.
  split; intros ->.
  - rewrite <- (app_nil_r (map Returns texts)), extract_pages_prefix. done.
  - rewrite extract_pages_prefix. done.
Qed.

Lemma pdf_pages_read_in_order_witness :
  let f := UploadedFile (py "cv.pdf") (py "pdf") (Throws [])
             (Module_ (Returns [Returns (py "Jane Doe"); Returns (py "Skills: SQL");
                                Throws (py "bad xref"); Returns (py "Education")]))
             ImportError in
  read_uploaded_file f (World ∅ [])
  = (Ok (py "Jane Doe" ++ [LF] ++ py "Skills: SQL" ++ [LF]),
     World ∅ [Show Error (py "❌ Error reading PDF: bad xref")]).
Proof.
  intros f.
  rewrite (proj2 (pdf_pages_read_in_order f [py "Jane Doe"; py "Skills: SQL"]
                    (py "bad xref") [Returns (py "Education")] (World ∅ [])
                    eq_refl) eq_refl).
  reflexivity.
Defined.



(** ** The resume tab, from the file to the model *)

Lemma read_pdf_failed_page (f : uploaded_file) (texts : list str) (e : str)
    (rest : list (reply str)) (w : world) :
  file_extension f = py "pdf" →
  pdf_pages f = Module_ (Returns (map Returns texts ++ Throws e :: rest)) →
  read_uploaded_file f w
  = (Ok (pages_text texts),
     World (session_state w)
           (trace w ++ [Show Error (py "❌ Error reading PDF: " ++ e)])).
Proof.
  intros Hext Hpages. unfold read_uploaded_file, try_except.
  rewrite Hext, Hpages.
  assert (bool_decide (py "pdf" = py "txt") = false) as -> by reflexivity.
  assert (bool_decide (py "pdf" = py "pdf") = true) as -> by reflexivity.
  by rewrite extract_pages_prefix.
Qed.

(** X19.  In the resume tab with the button pressed: when no file was
    uploaded the warning is shown and nothing is called; and when the
    upload is a PDF of which a page failed, the text of the pages before
    it, if its stripped length is 100 or more, is what the model is asked
    about, the error shown notwithstanding. *)
Theorem resume_tab_from_file_to_model env (w : widgets) (llm : model)
    (world : world) (f : uploaded_file) (texts : list str) (e : str)
    (rest : list (reply str)) :
  btn_resume_analysis w = true →
  (resume_input_method w = UploadResumeFile None →
   resume_coach_tab env w llm world
   = (Ok tt,
      World (session_state world)
            (trace world ++ [Show Warning (py "⚠️ Please provide your resume content (at least 100 characters)")])))
  ∧ (resume_input_method w = UploadResumeFile (Some f) →
     file_extension f = py "pdf" →
     pdf_pages f = Module_ (Returns (map Returns texts ++ Throws e :: rest)) →
     100 ≤ length (strip (pages_text texts)) →
     calls (trace (resume_coach_tab env w llm world).2)
     = calls (trace world)
       ++ [LlmInvoke (resume_prompt (pages_text texts)
                        (choose_target_role (target_role_input w)
                                            (selected_subcareer w)))]).
Proof.
  intros Hbtn. split.
  - intros Hnone. unfold resume_coach_tab. rewrite Hnone, Hbtn. done.
  - intros Hfile Hext Hpages Hlen. unfold resume_coach_tab.
    rewrite Hfile, Hbtn. cbn [read_resume].
    erewrite bind_ok by exact (read_pdf_failed_page f texts e rest world Hext Hpages).
    unfold analyze_resume.
    assert (nonempty (pages_text texts) = true) as ->.
    { destruct (pages_text texts); [|done]. rewrite strip_nil in Hlen.
      simpl in Hlen. lia. }
    apply Nat.ltb_ge in Hlen. rewrite Hlen. cbn [negb orb].
    set (world1 := World _ _).
    destruct (generate_resume_feedback_run (pages_text texts)
                (choose_target_role (target_role_input w) (selected_subcareer w))
                llm world1) as (out & shown & Hrun & Hcalls).
    rewrite (bind_ok _ _ _ _ _ Hrun), bind_run.
    unfold set_attr, st_markdown, emit. cbn [snd trace session_state].
    unfold world1. cbn [trace]. unfold calls in *.
    rewrite !List.filter_app. simpl. rewrite Hcalls.
    by rewrite !app_nil_r.
Qed.

Lemma resume_tab_from_file_to_model_witness :
  let env := Environment true (λ _, []) (λ _, Throws []) (λ _, Throws [])
                         (λ _ _, Throws []) in
  let llm : model := λ _ _, Returns (PStr (py "Score: 7/10")) in
  let f := UploadedFile (py "cv.pdf") (py "pdf") (Throws [])
             (Module_ (Returns [Returns (replicate 120 120%N); Throws (py "bad xref")]))
             ImportError in
  let w := Widgets (py "g") (py "s") false (py "💻 Technology") (py "Data Engineer")
                   false false false (UploadResumeFile (Some f)) [] true None in
  calls (trace (resume_coach_tab env w llm (World ∅ [])).2)
  = [LlmInvoke (resume_prompt (replicate 120 120%N ++ [LF]) (py "Data Engineer"))].
Proof.
  intros env llm f w.
  apply (proj2 (resume_tab_from_file_to_model env w llm (World ∅ []) f
                  [replicate 120 120%N] (py "bad xref") [] eq_refl));
    [reflexivity..|].
  vm_compute. lia.
Defined.

(** ** Counting the calls of a run *)

Section at_most_calls.
Context {A B : Type}.

Lemma at_most_weaken n k (m : M A) :
  n ≤ k → at_most_calls n m → at_most_calls k m.
Proof. intros Hle Hm w. specialize (Hm w). lia. Qed.

Lemma silent_at_most (m : M A) : silent m → at_most_calls 0 m.
Proof.
  intros Hm w. destruct (Hm w) as (r & shown & -> & Hc).
  cbn [snd trace]. rewrite calls_app, Hc, app_nil_r. lia.
Qed.

Lemma at_most_bind n k (m : M A) (f : A → M B) :
  at_most_calls n m → (∀ a, at_most_calls k (f a)) →
  at_most_calls (n + k) (m ≫= f).
Proof.
  intros Hm Hf w. rewrite bind_run. specialize (Hm w).
  destruct (m w) as [[a|e|] w']; cbn [snd] in *; [|lia..].
  specialize (Hf a w'). lia.
Qed.

Lemma at_most_try_except n (m : M A) (h : str → M A) :
  at_most_calls n m → (∀ e, at_most_calls 0 (h e)) →
  at_most_calls n (try_except m h).
Proof.
  intros Hm Hh w. unfold try_except. specialize (Hm w).
  destruct (m w) as [[a|e|] w']; cbn [snd] in *; [lia| |lia].
  specialize (Hh e w'). lia.
Qed.
End at_most_calls.

Lemma at_most_invoke llm prompt : at_most_calls 1 (invoke llm prompt).
Proof.
  intros w. unfold invoke.
  destruct (llm _ _); cbn [snd trace]; rewrite calls_app, length_app; simpl; lia.
Qed.

Lemma at_most_run agent_executor prompt callbacks :
  at_most_calls 1 (run agent_executor prompt callbacks).
Proof.
  intros w. unfold run.
  destruct (agent_executor _ _); cbn [snd trace];
    rewrite calls_app, length_app; simpl; lia.
Qed.

Lemma at_most_set_attr key v : at_most_calls 0 (set_attr key v).
Proof. intros w. simpl. lia. Qed.

Lemma at_most_generate llm (prompt shown_text returned_text : str) :
  at_most_calls 1
    (try_except
       (match llm with
        | None => raise (py "LLM not initialized")
        | Some llm => invoke llm prompt
        end)
       (λ e, _ ← st_error (shown_text ++ e); mret (PStr (returned_text ++ e)))).
Proof.
  apply at_most_try_except.
  - destruct llm; [apply at_most_invoke|].
    apply (at_most_weaken 0); [lia|]. apply silent_at_most, silent_raise.
  - intros e. apply silent_at_most. repeat silent_step.
Qed.

(** A button that is not pressed leaves its branch out: [n] calls at the
    most when pressed, none when not. *)
Lemma at_most_if {A} (pressed : bool) n (m m' : M A) :
  at_most_calls n m → at_most_calls 0 m' →
  at_most_calls (Nat.b2n pressed * n) (if pressed then m else m').
Proof. destruct pressed; simpl; [by rewrite Nat.add_0_r | done]. Qed.

Lemma at_most_append_message m : at_most_calls 0 (append_message m).
Proof.
  unfold append_message.
  apply (at_most_bind 0 0); [apply silent_at_most, silent_get_messages|].
  intros l. apply at_most_set_attr.
Qed.

Lemma at_most_tab (pressed : bool) env key (label : str) (generate : M py_output) :
  at_most_calls 1 generate →
  at_most_calls (Nat.b2n pressed)
    (if pressed then
       _ ← set_attr "selected_career" (VStr label);
       output ← generate;
       _ ← set_attr key (VOut output);
       st_markdown (as_markdown output)
     else show_cached env key).
Proof.
  intros Hgen. rewrite <- (Nat.mul_1_r (Nat.b2n pressed)).
  apply at_most_if; [|apply silent_at_most, silent_show_cached].
  apply (at_most_bind 0 1); [apply at_most_set_attr|intros _].
  apply (at_most_bind 1 0); [done|intros output].
  apply (at_most_bind 0 0); [apply at_most_set_attr|intros _].
  apply silent_at_most. silent_step.
Qed.

Lemma at_most_resume_coach_tab env w llm :
  at_most_calls (Nat.b2n (btn_resume_analysis w)) (resume_coach_tab env w llm).
Proof.
  unfold resume_coach_tab.
  apply (at_most_bind 0 (Nat.b2n (btn_resume_analysis w)));
    [apply silent_at_most, silent_read_resume|].
  intros resume_text. unfold analyze_resume.
  rewrite <- (Nat.mul_1_r (Nat.b2n (btn_resume_analysis w))).
  apply at_most_if.
  - destruct (_ || _).
    + apply (at_most_weaken 0); [lia|]. apply silent_at_most. silent_step.
    + apply (at_most_bind 1 0); [apply at_most_generate|intros output].
      apply (at_most_bind 0 0); [apply at_most_set_attr|intros _].
      apply silent_at_most. silent_step.
  - apply silent_at_most. repeat (silent_step || case_match).
Qed.

Lemma at_most_create_chat_interface env agent_executor chat_input :
  at_most_calls (Nat.b2n (submitted chat_input))
    (create_chat_interface env agent_executor chat_input).
Proof.
  destruct (submitted chat_input) eqn:Hsub.
  - destruct chat_input as [prompt|]; [|done]. cbn [submitted] in Hsub.
    unfold create_chat_interface. rewrite Hsub.
    apply (at_most_bind 0 1); [apply silent_at_most, silent_get_messages|intros l].
    apply (at_most_bind 0 1); [apply silent_at_most, silent_show_messages|intros _].
    apply (at_most_bind 0 1); [apply at_most_append_message|intros _].
    apply (at_most_bind 0 1); [apply silent_at_most, silent_show|intros _].
    apply (at_most_bind 0 1); [apply silent_at_most, silent_get_messages|intros l'].
    apply at_most_try_except.
    + apply (at_most_bind 1 0); [apply at_most_run|intros response].
      apply (at_most_bind 0 0); [apply silent_at_most, silent_show|intros _].
      apply at_most_append_message.
    + intros e. apply (at_most_bind 0 0); [apply silent_at_most; silent_step|].
      intros _. apply at_most_append_message.
  - apply silent_at_most, silent_chat_idle.
    destruct chat_input as [prompt|]; [|done]. cbn [submitted] in Hsub.
    by rewrite Hsub.
Qed.

Lemma at_most_features env w llm agent_executor :
  at_most_calls (actions w) (features env w llm agent_executor).
Proof.
  unfold features, actions. destruct (dict_get _ _).
  - apply at_most_bind; [apply at_most_tab, at_most_generate|intros _].
    apply at_most_bind; [apply at_most_tab, at_most_generate|intros _].
    apply at_most_bind; [apply at_most_tab, at_most_generate|intros _].
    apply at_most_bind; [apply at_most_resume_coach_tab|intros _].
    apply at_most_create_chat_interface.
  - apply (at_most_weaken 0); [lia|]. apply silent_at_most, silent_raise.
Qed.

(** X20.  A run of the page never makes more calls than there are feature
    buttons pressed and questions sent in it: one call of the model at the
    most for each of the four buttons, one run of the agent at the most
    for a question, and none for the set-up, the cached results or the
    side bar, whatever the session holds and however the calls end. *)
Theorem main_calls_at_most_once_per_action env (w : widgets) (world : world) :
  length (calls (trace (main env w world).2))
  ≤ length (calls (trace world)) + actions w.
Proof.
  destruct (main_start env w world) as (shown0 & Hshown0 & Hmain).
  cbv zeta in Hmain. rewrite Hmain. clear Hmain.
  assert (calls (trace world ++ [shown0]) = calls (trace world)) as Hsame.
  { rewrite calls_app. unfold calls at 2. simpl. rewrite Hshown0.
    apply app_nil_r. }
  destruct (clear_session_clicked w); [cbn [snd trace]; rewrite Hsame; lia|].
  set (s := <["api_keys_validated" := _]> _).
  assert (at_most_calls (actions w)
    (if negb (nonempty (google_key w) && nonempty (serpapi_key w)) then
       st_info (py "👈 Please provide your Google Gemini and SerpAPI keys in the sidebar to get started.")
     else
       '(llm, tools) ← initialize_llm_and_tools env (google_key w) (serpapi_key w);
       match llm, tools with
       | Some llm, Some (tool :: tools') =>
         agent_executor ← create_agent_with_tools env llm (tool :: tools');
         match agent_executor with
         | None => st_error (py "❌ Agent initialization failed.")
         | Some agent_executor => features env w llm agent_executor
         end
       | _, _ =>
         st_error (py "❌ Failed to initialize AI components. Check your API keys and network.")
       end)) as Hrest.
  { assert (∀ text, at_most_calls (actions w) (st_error text)) as Herror.
    { intros text. apply (at_most_weaken 0); [lia|].
      apply silent_at_most. silent_step. }
    destruct (negb _).
    { apply (at_most_weaken 0); [lia|]. apply silent_at_most. silent_step. }
    apply (at_most_bind 0 (actions w));
      [apply silent_at_most, silent_initialize_llm_and_tools|].
    intros [[llm|] tools]; [|apply Herror].
    destruct tools as [[|tool tools']|]; [apply Herror| |apply Herror].
    apply (at_most_bind 0 (actions w));
      [apply silent_at_most, silent_create_agent_with_tools|].
    intros [agent_executor|]; [apply at_most_features | apply Herror]. }
  specialize (Hrest (World s (trace world ++ [shown0]))).
  cbn [trace] in Hrest. rewrite Hsame in Hrest. exact Hrest.
Qed.
